(** * daily-reporting: the daily filter, the event classifier and the report

    A shallow embedding of [main.go].  The decoded GitHub events are values
    of Go's [interface{}] as [encoding/json] builds them, the two loops of
    [getDailyEvents] and [formatEvents] are folds over the event list, and a
    failed single-value type assertion is a run-time panic, kept as such in
    the result type. *)

From stdpp Require Import base option list gmap strings.
From Stdlib Require Import ZArith Lia Ascii String.

#[local] Set Warnings "-register-all".
#[local] Open Scope Z_scope.

(** ** The pieces of Go's [time] package that [main.go] calls *)

Module GoTime.

(** A [time.Time]: the instant in seconds since the Unix epoch and the
    offset, in seconds east of UTC, of the zone the value carries.  The
    sub-second part plays no role in the two layouts the program prints. *)
Record Time := mkTime { unixSec : Z; zoneOffset : Z }.

Definition secondsPerDay : Z := 86400.

(** Days from 0001-01-01 to 1970-01-01. *)
Definition unixEpochDay : Z := 719162.

Definition daysPer400Years : Z := 146097.
Definition daysPer100Years : Z := 36524.
Definition daysPer4Years : Z := 1461.

Definition isLeap (year : Z) : bool :=
  (year mod 4 =? 0) && (negb (year mod 100 =? 0) || (year mod 400 =? 0)).

(** [daysBefore m]: days in a non-leap year before month [m + 1] starts
    (the table of the same name in package time). *)
Definition daysBefore (m : Z) : Z :=
  if m <=? 0 then 0
  else if m =? 1 then 31
  else if m =? 2 then 59
  else if m =? 3 then 90
  else if m =? 4 then 120
  else if m =? 5 then 151
  else if m =? 6 then 181
  else if m =? 7 then 212
  else if m =? 8 then 243
  else if m =? 9 then 273
  else if m =? 10 then 304
  else if m =? 11 then 334
  else 365.

Definition daysIn (month year : Z) : Z :=
  if (month =? 2) && isLeap year then 29
  else daysBefore month - daysBefore (month - 1).

(** Days from 0001-01-01 to the first day of [year]. *)
Definition daysSinceYear1 (year : Z) : Z :=
  let y := year - 1 in
  365 * y + y / 4 - y / 100 + y / 400.

(** [time.Date] in UTC for fields that are already in range: the instant
    as Unix seconds.  Package time computes it in 64-bit words; the numbers
    here are the same as long as these do not wrap, as for the years 0 to
    9999 that a parsed string can name. *)
Definition Date (year month day hour min sec : Z) : Z :=
  let d := daysSinceYear1 year + daysBefore (month - 1) in
  let d := if isLeap year && (3 <=? month) then d + 1 else d in
  let d := d + (day - 1) in
  (d - unixEpochDay) * secondsPerDay + (hour * 3600 + min * 60 + sec).

(** [absDate] up to the year: the year and the day within it (from 0)
    of a day number counted from 0001-01-01, by 400-, 100-, 4- and 1-year
    cycles. *)
Definition absYearDay (d : Z) : Z * Z :=
  let n := d / daysPer400Years in
  let y := 400 * n in
  let d := d - daysPer400Years * n in
  let n := d / daysPer100Years in
  let n := n - n / 4 in
  let y := y + 100 * n in
  let d := d - daysPer100Years * n in
  let n := d / daysPer4Years in
  let y := y + 4 * n in
  let d := d - daysPer4Years * n in
  let n := d / 365 in
  let n := n - n / 4 in
  let y := y + n in
  let d := d - 365 * n in
  (y + 1, d).

(** The rest of [absDate]: month and day of the month from the day of the
    year, estimating the month as if every month had 31 days. *)
Definition monthDay (leap : bool) (yday : Z) : Z * Z :=
  let day := yday in
  if leap && (day =? 31 + 29 - 1) then (2, 29)
  else
    let day := if leap && (31 + 29 - 1 <? day) then day - 1 else day in
    let month := day / 31 in
    let e := daysBefore (month + 1) in
    let '(month, begin) :=
      if e <=? day then (month + 1, e) else (month, daysBefore month) in
    (month + 1, day - begin + 1).

Definition absDate (d : Z) : Z * Z * Z :=
  let '(year, yday) := absYearDay d in
  let '(month, day) := monthDay (isLeap year) yday in
  (year, month, day).

(** [t.Date()]: the calendar date of [t] in the zone [t] carries. *)
Definition date (t : Time) : Z * Z * Z :=
  absDate ((unixSec t + zoneOffset t) / secondsPerDay + unixEpochDay).

(** [t.UTC().Date()]: the calendar date of the same instant in UTC. *)
Definition utcDate (t : Time) : Z * Z * Z :=
  absDate (unixSec t / secondsPerDay + unixEpochDay).

(** *** Printing *)

Definition digitChar (d : Z) : ascii := ascii_of_nat (48 + Z.to_nat d).

Fixpoint utoa (fuel : nat) (u : Z) (acc : string) : string :=
  let acc := String (digitChar (u mod 10)) acc in
  match fuel with
  | O => acc
  | S fuel => if u <? 10 then acc else utoa fuel (u / 10) acc
  end.

Fixpoint zeros (n : nat) : string :=
  match n with O => "" | S n => String "0"%char (zeros n) end.

(** [appendInt]: decimal, a minus sign for negatives, zero-padded to
    [width] digits. *)
Definition appendInt (x : Z) (width : nat) : string :=
  let u := Z.abs x in
  let ds := utoa (Z.to_nat (Z.log2 u)) u "" in
  (if x <? 0 then "-" else "") +:+ zeros (width - String.length ds) +:+ ds.

Definition shortMonthName (m : Z) : string :=
  if m =? 1 then "Jan" else if m =? 2 then "Feb" else if m =? 3 then "Mar"
  else if m =? 4 then "Apr" else if m =? 5 then "May" else if m =? 6 then "Jun"
  else if m =? 7 then "Jul" else if m =? 8 then "Aug" else if m =? 9 then "Sep"
  else if m =? 10 then "Oct" else if m =? 11 then "Nov" else "Dec".

(** Layout ["2006-01-02"] (the program's [dateFormat]) on a date. *)
Definition layout_2006_01_02 (ymd : Z * Z * Z) : string :=
  let '(year, month, day) := ymd in
  appendInt year 4 +:+ "-" +:+ appendInt month 2 +:+ "-" +:+ appendInt day 2.

(** Layout ["Jan 02, 2006"] on a date. *)
Definition layout_Jan_02_2006 (ymd : Z * Z * Z) : string :=
  let '(year, month, day) := ymd in
  shortMonthName month +:+ " " +:+ appendInt day 2 +:+ ", " +:+ appendInt year 4.

(** [t.Format(dateFormat)] and [t.Format("Jan 02, 2006")]. *)
Definition Format_dateFormat (t : Time) : string := layout_2006_01_02 (date t).
Definition Format_header (t : Time) : string := layout_Jan_02_2006 (date t).

(** *** Parsing: [time.Parse(time.RFC3339, value)]

    [Parse] first tries [parseRFC3339], which takes the strings of the
    layout ["2006-01-02T15:04:05Z07:00"] to the letter, and on its failure
    hands the string to the general layout parser [parse], which reads the
    same layout piece by piece and lets a few more strings through: an hour
    of one digit, a comma before the fraction of the second, and an offset
    of up to 24 hours and 60 minutes.  The result keeps the offset of the
    string as its zone. *)

Definition isDigit (c : ascii) : bool :=
  (48 <=? nat_of_ascii c)%nat && (nat_of_ascii c <=? 57)%nat.

Fixpoint digitsValue (s : string) (x : Z) : option Z :=
  match s with
  | EmptyString => Some x
  | String c s =>
      if isDigit c then digitsValue s (x * 10 + (Z.of_nat (nat_of_ascii c) - 48))
      else None
  end.

(** [parseUint]: an unsigned decimal within [min..max], or failure. *)
Definition parseUint (s : string) (min max : Z) : option Z :=
  x ← digitsValue s 0;
  if (x <? min) || (max <? x) then None else Some x.

Definition charIs (s : string) (i : nat) (c : ascii) : bool :=
  match String.get i s with
  | Some c' => bool_decide (c' = c)
  | None => false
  end.

Fixpoint dropDigits (s : string) : string :=
  match s with
  | String c s' => if isDigit c then dropDigits s' else s
  | EmptyString => s
  end.

(** The fractional second: a dot and at least one digit, skipped. *)
Definition dropFraction (s : string) : string :=
  match s with
  | String "."%char (String c s') => if isDigit c then dropDigits s' else s
  | _ => s
  end.

(** The zone: ["Z"], or a sign, two digits, a colon and two digits. *)
Definition parseZone (s : string) : option Z :=
  if bool_decide (s = "Z") then Some 0
  else if negb (String.length s =? 6)%nat then None
  else
    hr ← parseUint (substring 1 2 s) 0 23;
    mm ← parseUint (substring 4 2 s) 0 59;
    if negb ((charIs s 0 "-"%char || charIs s 0 "+"%char) && charIs s 3 ":"%char) then None
    else
      let zoneOffset := (hr * 60 + mm) * 60 in
      Some (if charIs s 0 "-"%char then - zoneOffset else zoneOffset).

(** [parseRFC3339]: the fast path, fields at fixed positions. *)
Definition parseRFC3339 (s : string) : option Time :=
  if (String.length s <? 19)%nat then None
  else
    year ← parseUint (substring 0 4 s) 0 9999;
    month ← parseUint (substring 5 2 s) 1 12;
    day ← parseUint (substring 8 2 s) 1 (daysIn month year);
    hour ← parseUint (substring 11 2 s) 0 23;
    min ← parseUint (substring 14 2 s) 0 59;
    sec ← parseUint (substring 17 2 s) 0 59;
    if negb (charIs s 4 "-"%char && charIs s 7 "-"%char && charIs s 10 "T"%char
             && charIs s 13 ":"%char && charIs s 16 ":"%char) then None
    else
      let s := dropFraction (substring 19 (String.length s - 19) s) in
      zoneOffset ← parseZone s;
      Some (mkTime (Date year month day hour min sec - zoneOffset) zoneOffset).

(** The general parser consumes [value] from the front, one piece of the
    layout after the other.  [skip]: a literal character of the layout (none
    of this layout's is a space). *)
Definition skip (value : string) (prefix : ascii) : option string :=
  match value with
  | String c value => if bool_decide (c = prefix) then Some value else None
  | EmptyString => None
  end.

Definition digitValue (c : ascii) : Z := Z.of_nat (nat_of_ascii c) - 48.

(** [getnum]: a number of one or two digits, of two when [fixed], and the
    rest of the string. *)
Definition getnum (s : string) (fixed : bool) : option (Z * string) :=
  match s with
  | String c0 s1 =>
      if negb (isDigit c0) then None
      else
        match s1 with
        | String c1 s2 =>
            if isDigit c1 then Some (digitValue c0 * 10 + digitValue c1, s2)
            else if fixed then None else Some (digitValue c0, s1)
        | EmptyString => if fixed then None else Some (digitValue c0, s1)
        end
  | EmptyString => None
  end.

(** [case stdLongYear]: the first four characters, which [atoi] takes only
    when all of them are digits. *)
Definition getLongYear (value : string) : option (Z * string) :=
  match value with
  | String c0 (String c1 (String c2 (String c3 value))) =>
      year ← digitsValue (String c0 (String c1 (String c2 (String c3 "")))) 0;
      Some (year, value)
  | _ => None
  end.

Definition commaOrPeriod (c : ascii) : bool :=
  bool_decide (c = "."%char) || bool_decide (c = ","%char).

(** After the seconds, a fraction that the layout does not have: a dot or a
    comma and at least one digit, skipped. *)
Definition skipFraction (value : string) : string :=
  match value with
  | String c0 (String c1 value') =>
      if commaOrPeriod c0 && isDigit c1 then dropDigits value' else value
  | _ => value
  end.

(** [case stdISO8601ColonTZ]: ["Z"], or a sign, two digits, a colon and two
    digits, where the hours may reach 24 and the minutes 60; the offset in
    seconds and the rest of the string. *)
Definition getColonTZ (value : string) : option (Z * string) :=
  if charIs value 0 "Z"%char then Some (0, substring 1 (String.length value - 1) value)
  else if (String.length value <? 6)%nat then None
  else if negb (charIs value 3 ":"%char) then None
  else
    '(hr, _) ← getnum (substring 1 2 value) true;
    '(mm, _) ← getnum (substring 4 2 value) true;
    if (24 <? hr) || (60 <? mm) then None
    else
      let zoneOffset := (hr * 60 + mm) * 60 in
      let value' := substring 6 (String.length value - 6) value in
      if charIs value 0 "+"%char then Some (zoneOffset, value')
      else if charIs value 0 "-"%char then Some (- zoneOffset, value')
      else None.

(** [parse] at the layout [RFC3339]: year, ["-"], month, ["-"], day, ["T"],
    hour, [":"], minute, [":"], second, zone, and nothing after it; the day
    is checked against the month at the end. *)
Definition parse (value : string) : option Time :=
  '(year, value) ← getLongYear value;
  value ← skip value "-"%char;
  '(month, value) ← getnum value true;
  if (month <=? 0) || (12 <? month) then None else
  value ← skip value "-"%char;
  '(day, value) ← getnum value true;
  value ← skip value "T"%char;
  '(hour, value) ← getnum value false;
  if (hour <? 0) || (24 <=? hour) then None else
  value ← skip value ":"%char;
  '(min, value) ← getnum value true;
  if (min <? 0) || (60 <=? min) then None else
  value ← skip value ":"%char;
  '(sec, value) ← getnum value true;
  if (sec <? 0) || (60 <=? sec) then None else
  '(zoneOffset, value) ← getColonTZ (skipFraction value);
  if negb (bool_decide (value = "")) then None else
  if (day <? 1) || (daysIn month year <? day) then None else
  Some (mkTime (Date year month day hour min sec - zoneOffset) zoneOffset).

Definition Parse_RFC3339 (value : string) : option Time :=
  match parseRFC3339 value with
  | Some t => Some t
  | None => parse value
  end.

End GoTime.

Import GoTime.

(** ** Decoded JSON and Go's type assertions *)

(** What [json.Unmarshal] stores in an [interface{}]: nil, a bool, a number
    (kept as its literal; the program never reads one), a string, a slice or
    a map keyed by strings. *)
Inductive value :=
  | VNil
  | VBool (b : bool)
  | VNumber (lit : string)
  | VString (s : string)
  | VArray (l : list value)
  | VMap (m : gmap string value).

(** One event: a [map[string]interface{}]. *)
Abbreviation Event := (gmap string value).

(** The outcome of code that may panic. *)
Inductive result (A : Type) :=
  | Ok (a : A)
  | Panic.
Arguments Ok {A} a.
Arguments Panic {A}.

#[global] Instance result_ret : MRet result := fun _ a => Ok a.
#[global] Instance result_bind : MBind result := fun _ _ f r =>
  match r with Ok a => f a | Panic => Panic end.

Fixpoint foldM {A B : Type} (f : A -> B -> result A) (a : A) (l : list B) : result A :=
  match l with
  | [] => Ok a
  | b :: l => a' ← f a b; foldM f a' l
  end.

(** [x.(map[string]interface{})], the single-value form: indexing a missing
    key gives a nil interface, and asserting a map on anything that is not
    one panics. *)
Definition assertMap (x : option value) : result (gmap string value) :=
  match x with
  | Some (VMap m) => Ok m
  | _ => Panic
  end.

(** [s, ok = x.(string)] and [b, ok = x.(bool)], the comma-ok form: the zero
    value and [false] when the assertion fails. *)
Definition assertString (x : option value) : string * bool :=
  match x with
  | Some (VString s) => (s, true)
  | _ => ("", false)
  end.

Definition assertBool (x : option value) : bool * bool :=
  match x with
  | Some (VBool b) => (b, true)
  | _ => (false, false)
  end.

(** ** [getDailyEvents], from the decoded events on (lines 84-98) *)

Definition dailyStep (date : string) (dailyEvents : list Event) (event : Event)
  : list Event :=
  let '(createdAt, ok) := assertString (event !! "created_at") in
  if negb ok then dailyEvents
  else
    match Parse_RFC3339 createdAt with
    | Some startTime =>
        if bool_decide (Format_dateFormat startTime = date)
        then dailyEvents ++ [event]
        else dailyEvents
    | None => dailyEvents
    end.

Definition getDailyEvents (date : string) (events : list Event) : list Event :=
  fold_left (dailyStep date) events [].

(** ** [formatEvents] *)

(** The four fields the loop body reads from an event. *)
Record fields := mkFields {
  prTitle : string;
  action : string;
  author : string;
  merged : bool
}.

(** Lines 117-132: the [switch eventType]; the variables keep their zero
    values when no case applies. *)
Definition extract (eventType : string) (event : Event) : result fields :=
  if bool_decide (eventType = "PullRequestEvent") then
    action ← (payload ← assertMap (event !! "payload");
              mret (assertString (payload !! "action")).1);
    merged ← (payload ← assertMap (event !! "payload");
              pr ← assertMap (payload !! "pull_request");
              mret (assertBool (pr !! "merged")).1);
    prTitle ← (payload ← assertMap (event !! "payload");
               pr ← assertMap (payload !! "pull_request");
               mret (assertString (pr !! "title")).1);
    author ← (payload ← assertMap (event !! "payload");
              pr ← assertMap (payload !! "pull_request");
              user ← assertMap (pr !! "user");
              mret (assertString (user !! "login")).1);
    mret (mkFields prTitle action author merged)
  else if bool_decide (eventType = "PullRequestReviewEvent") then
    action ← (payload ← assertMap (event !! "payload");
              mret (assertString (payload !! "action")).1);
    merged ← (payload ← assertMap (event !! "payload");
              pr ← assertMap (payload !! "pull_request");
              mret (assertBool (pr !! "merged")).1);
    prTitle ← (payload ← assertMap (event !! "payload");
               pr ← assertMap (payload !! "pull_request");
               mret (assertString (pr !! "title")).1);
    author ← (payload ← assertMap (event !! "payload");
              review ← assertMap (payload !! "review");
              user ← assertMap (review !! "user");
              mret (assertString (user !! "login")).1);
    mret (mkFields prTitle action author merged)
  else
    mret (mkFields "" "" "" false).

(** Lines 138-154: the tagless [switch]; the first case that holds sets
    [status], and [status] stays empty when none does.  [username] is the
    value of [os.Getenv("GITHUB_USERNAME")]. *)
Definition statusOf (username : string) (f : fields) : string :=
  if bool_decide (author f = username) && bool_decide (action f = "opened") && merged f
  then "Done"
  else if bool_decide (author f = username) && bool_decide (action f = "opened")
  then "In Review"
  else if bool_decide (author f = username) && bool_decide (action f = "closed") && merged f
  then "Done"
  else if bool_decide (author f = username) && merged f
  then "Done"
  else if bool_decide (author f ≠ username) && bool_decide (action f = "closed") && merged f
  then "Reviewed and merged"
  else if bool_decide (author f ≠ username) && bool_decide (action f = "closed")
  then "Reviewed"
  else "".

(** [fmt.Sprintf("• %s | %s\n", status, prTitle)]. *)
Definition reportLine (status prTitle : string) : string :=
  "• " +:+ status +:+ " | " +:+ prTitle +:+ "
".

(** [seenTitles[prTitle]] on a [map[string]bool]: [false] for a missing key. *)
Definition seen (seenTitles : gmap string bool) (prTitle : string) : bool :=
  default false (seenTitles !! prTitle).

(** Lines 135-160: what the loop does once the fields are read. *)
Definition record (username : string) (st : string * gmap string bool) (f : fields)
  : string * gmap string bool :=
  let '(report, seenTitles) := st in
  if negb (seen seenTitles (prTitle f)) then
    let seenTitles := <[prTitle f := true]> seenTitles in
    let status := statusOf username f in
    if negb (bool_decide (status = "")) && negb (bool_decide (prTitle f = ""))
    then (report +:+ reportLine status (prTitle f), seenTitles)
    else (report, seenTitles)
  else (report, seenTitles).

(** Lines 112-132: [continue] when the type is not a string ([None]), the
    fields otherwise. *)
Definition readFields (event : Event) : result (option fields) :=
  let '(eventType, ok) := assertString (event !! "type") in
  if negb ok then mret None
  else f ← extract eventType event; mret (Some f).

(** Lines 111-161: one iteration of the loop over the events. *)
Definition formatStep (username : string) (st : string * gmap string bool)
  (event : Event) : result (string * gmap string bool) :=
  o ← readFields event;
  match o with
  | None => mret st
  | Some f => mret (record username st f)
  end.

Definition reportHead (now : Time) : string :=
  ((Format_header now +:+ ":
") +:+ "• Done | Attended frail-check meeting
") +:+ "• Done | Attended frail-check followup meeting
".

Definition reportTail : string := "Next:
• Continue with assigned task and R&D
".

(** [formatEvents]; [now] is the value of [time.Now()] and [username] that
    of the environment variable. *)
Definition formatEvents (now : Time) (username : string) (events : list Event)
  : result string :=
  let report := reportHead now in
  st ← foldM (formatStep username) (report, ∅) events;
  mret (st.1 +:+ reportTail).

(** [main], between the decoded response and the output: the events of
    today, formatted.  [today] is the value of [time.Now()] in [main] and
    [now] its value in [formatEvents], read later. *)
Definition dailyReport (today now : Time) (username : string) (events : list Event)
  : result string :=
  formatEvents now username (getDailyEvents (Format_dateFormat today) events).

(** ** Definitions used to state the properties *)

(** Whether the daily filter keeps an event. *)
Definition keeps (date : string) (event : Event) : bool :=
  match event !! "created_at" with
  | Some (VString createdAt) =>
      match Parse_RFC3339 createdAt with
      | Some startTime => bool_decide (Format_dateFormat startTime = date)
      | None => false
      end
  | _ => false
  end.

(** The fields of the events the loop does not [continue] on, in order. *)
Fixpoint readAll (events : list Event) : result (list fields) :=
  match events with
  | [] => mret []
  | event :: events =>
      o ← readFields event;
      fs ← readAll events;
      mret (match o with Some f => f :: fs | None => fs end)
  end.

(** The six rules of the classifier's table, numbered as in the table, and
    their statuses. *)
Definition rule (k : nat) (selfUsername : string) (f : fields) : bool :=
  match k with
  | 1%nat => bool_decide (author f = selfUsername) && bool_decide (action f = "opened") && merged f
  | 2%nat => bool_decide (author f = selfUsername) && bool_decide (action f = "opened")
  | 3%nat => bool_decide (author f = selfUsername) && bool_decide (action f = "closed") && merged f
  | 4%nat => bool_decide (author f = selfUsername) && merged f
  | 5%nat => bool_decide (author f ≠ selfUsername) && bool_decide (action f = "closed") && merged f
  | 6%nat => bool_decide (author f ≠ selfUsername) && bool_decide (action f = "closed")
  | _ => false
  end.

Definition ruleStatus (k : nat) : string :=
  match k with
  | 1%nat => "Done"
  | 2%nat => "In Review"
  | 3%nat => "Done"
  | 4%nat => "Done"
  | 5%nat => "Reviewed and merged"
  | 6%nat => "Reviewed"
  | _ => ""
  end.

(** The first rule of the table that holds, if any. *)
Definition firstRule (selfUsername : string) (f : fields) : option nat :=
  snd <$> list_find (λ k, rule k selfUsername f = true) [1; 2; 3; 4; 5; 6]%nat.

(** The line an event yields when its title is new: status and title, both
    non-empty. *)
Definition lineOf (username : string) (f : fields) : option (string * string) :=
  if negb (bool_decide (statusOf username f = "")) && negb (bool_decide (prTitle f = ""))
  then Some (statusOf username f, prTitle f)
  else None.

(** For each title, the first event that carries it, in order. *)
Fixpoint firstMentions (fs : list fields) : list fields :=
  match fs with
  | [] => []
  | f :: fs => f :: filter (λ g, prTitle g ≠ prTitle f) (firstMentions fs)
  end.

(** The titles of a list in the order of their first occurrence. *)
Fixpoint firstTitles (ts : list string) : list string :=
  match ts with
  | [] => []
  | t :: ts => t :: filter (λ t', t' ≠ t) (firstTitles ts)
  end.

(** The classified (status, title) entries of a run over [fs]. *)
Definition classified (username : string) (fs : list fields) : list (string * string) :=
  omap (lineOf username) (firstMentions fs).

Definition renderLines (ls : list (string * string)) : string :=
  fold_right (λ l acc, reportLine l.1 l.2 +:+ acc) "" ls.

(** Reading a report back: its lines, and the title of a line of the form
    ["• status | title"]. *)
Fixpoint splitLines (cur s : string) : list string :=
  match s with
  | EmptyString => if bool_decide (cur = "") then [] else [cur]
  | String c s =>
      if bool_decide (c = "010"%char) then cur :: splitLines "" s
      else splitLines (cur +:+ String c "") s
  end.

Definition lineTitle (line : string) : option string :=
  if String.prefix "• " line then
    match String.index 0 " | " line with
    | Some i => Some (substring (i + 3) (String.length line - (i + 3)) line)
    | None => None
    end
  else None.

Definition reportTitles (report : string) : list string :=
  omap lineTitle (splitLines "" report).

(** The reference loop body: an event of a type other than the two
    pull-request types is skipped before the seen-title check. *)
Definition formatStep_ref (username : string) (st : string * gmap string bool)
  (event : Event) : result (string * gmap string bool) :=
  let '(eventType, ok) := assertString (event !! "type") in
  if negb ok then mret st
  else if negb (bool_decide (eventType = "PullRequestEvent")
                || bool_decide (eventType = "PullRequestReviewEvent"))
  then mret st
  else
    f ← extract eventType event;
    mret (record username st f).

Definition formatEvents_ref (now : Time) (username : string) (events : list Event)
  : result string :=
  let report := reportHead now in
  st ← foldM (formatStep_ref username) (report, ∅) events;
  mret (st.1 +:+ reportTail).

(** ** Sample events *)

Definition userObject (login : string) : value :=
  VMap {[ "login" := VString login ]}.

Definition pullRequest (title login : string) (merged : bool) : value :=
  VMap (<["title" := VString title]>
        (<["merged" := VBool merged]> {[ "user" := userObject login ]})).

Definition prEvent (createdAt action title login : string) (merged : bool) : Event :=
  <["type" := VString "PullRequestEvent"]>
  (<["created_at" := VString createdAt]>
  {[ "payload" := VMap (<["action" := VString action]>
                        {[ "pull_request" := pullRequest title login merged ]}) ]}).

Definition reviewEvent (createdAt action title reviewer : string) (merged : bool) : Event :=
  <["type" := VString "PullRequestReviewEvent"]>
  (<["created_at" := VString createdAt]>
  {[ "payload" := VMap (<["action" := VString action]>
                        (<["review" := VMap {[ "user" := userObject reviewer ]}]>
                        {[ "pull_request" := pullRequest title "someone" merged ]})) ]}).

(** A pull-request event whose author object has no login. *)
Definition prEventNoLogin (createdAt action title : string) (merged : bool) : Event :=
  <["type" := VString "PullRequestEvent"]>
  (<["created_at" := VString createdAt]>
  {[ "payload" := VMap (<["action" := VString action]>
        {[ "pull_request" :=
             VMap (<["title" := VString title]>
                   (<["merged" := VBool merged]> {[ "user" := VMap ∅ ]})) ]}) ]}).

Definition otherEvent (createdAt type : string) : Event :=
  <["type" := VString type]> {[ "created_at" := VString createdAt ]}.

(** 2024-01-02 10:13:20 UTC. *)
Definition jan02 : Time := mkTime 1704190400 0.


(** ** Predicates on events and on loop states *)

Definition isPullRequestType (eventType : string) : bool :=
  bool_decide (eventType = "PullRequestEvent")
  || bool_decide (eventType = "PullRequestReviewEvent").

(** The type is missing, is not a string, or is a string other than the two
    pull-request types. *)
Definition notPullRequest (event : Event) : bool :=
  match event !! "type" with
  | Some (VString eventType) => negb (isPullRequestType eventType)
  | _ => true
  end.

(** [created_at] is missing, is not a string, or does not parse. *)
Definition createdAtUnusable (event : Event) : bool :=
  match event !! "created_at" with
  | Some (VString createdAt) =>
      match Parse_RFC3339 createdAt with Some _ => false | None => true end
  | _ => true
  end.

(** [x] is a map, and the entry of [x] at [key] when it is one. *)
Definition isMap (x : option value) : bool :=
  match x with Some (VMap _) => true | _ => false end.

Definition entry (x : option value) (key : string) : option value :=
  match x with Some (VMap m) => m !! key | _ => None end.

(** The maps that the loop body asserts without a check are there: the
    payload, its pull request and the user of the pull request, or of the
    review, of an event of one of the two pull-request types. *)
Definition wellShaped (event : Event) : bool :=
  let payload := event !! "payload" in
  match event !! "type" with
  | Some (VString eventType) =>
      if bool_decide (eventType = "PullRequestEvent") then
        isMap payload && isMap (entry payload "pull_request")
        && isMap (entry (entry payload "pull_request") "user")
      else if bool_decide (eventType = "PullRequestReviewEvent") then
        isMap payload && isMap (entry payload "pull_request")
        && isMap (entry payload "review")
        && isMap (entry (entry payload "review") "user")
      else true
  | _ => true
  end.

(** Two loop states with the same report whose seen-title maps agree on every
    non-empty title. *)
Definition agree (st1 st2 : string * gmap string bool) : Prop :=
  st1.1 = st2.1 ∧ ∀ t, t ≠ "" → seen st1.2 t = seen st2.2 t.

Definition resultRel {A} (R : A → A → Prop) (r1 r2 : result A) : Prop :=
  match r1, r2 with
  | Ok a1, Ok a2 => R a1 a2
  | Panic, Panic => True
  | _, _ => False
  end.

(** The position of the first occurrence of a title. *)
Definition firstIndex (t : string) (ts : list string) : option nat :=
  fst <$> list_find (λ t', t' = t) ts.

(** The dedup property read over the whole report text, the two fixed lines
    included. *)
Definition dedupOverWholeReport : Prop :=
  ∀ now username events report,
    formatEvents now username events = Ok report → NoDup (reportTitles report).

(** A day of events: one from the day before, one of another type, and
    titles that come back. *)
Definition sampleEvents : list Event :=
  [ prEvent "2024-01-02T08:00:00Z" "closed" "Fix bug Y" "octocat" false;
    prEvent "2024-01-01T23:00:00Z" "opened" "Old work" "me" false;
    otherEvent "2024-01-02T08:30:00Z" "PushEvent";
    prEvent "2024-01-02T09:00:00Z" "opened" "Add feature X" "me" false;
    reviewEvent "2024-01-02T09:30:00Z" "closed" "Fix bug Y" "me" true;
    prEvent "2024-01-02T10:00:00Z" "closed" "Add feature X" "me" true ].

(** ** Calendar quantities used to state the properties of [GoTime] *)

Definition yearLength (year : Z) : Z := if isLeap year then 366 else 365.

(** The day of the year of a date, from 0. *)
Definition yearDay (leap : bool) (month day : Z) : Z :=
  daysBefore (month - 1) + (if leap && (3 <=? month) then 1 else 0) + (day - 1).

Definition monthLength (leap : bool) (month : Z) : Z :=
  if (month =? 2) && leap then 29 else daysBefore month - daysBefore (month - 1).

(** The date filter read as a filter on the UTC day of the event. *)
Definition filterByUtcDay : Prop :=
  ∀ date event createdAt startTime,
    event !! "created_at" = Some (VString createdAt) →
    Parse_RFC3339 createdAt = Some startTime →
    (keeps date event = true ↔ layout_2006_01_02 (utcDate startTime) = date).

(** ** [main] and the whole of [getDailyEvents] *)

(** A call that returns a value or a Go [error], kept as its message. *)
Inductive fallible (A : Type) :=
  | Value (a : A)
  | Error (err : string).
Arguments Value {A} a.
Arguments Error {A} err.

(** What a run of the program meets outside itself: whether
    [godotenv.Load] succeeds, the environment after it, the two readings of
    the clock (in [main] and in [formatEvents]), the answer of the HTTP
    exchange to a URL and an [Authorization] header (the body read to its
    end, or the error of building the request, sending it or reading the
    body), what [json.Unmarshal] makes of a body, and whether
    [ioutil.WriteFile] can write a path. *)
Record World := mkWorld {
  dotenvLoads : bool;
  getenv : string → string;
  clockMain : Time;
  clockFormat : Time;
  httpGet : string → string → fallible string;
  unmarshal : string → fallible (list Event);
  writeFile : string → string → Z → option string
}.

(** How a run ends: normally, by [log.Fatal] (exit status 1) or by a panic
    (exit status 2). *)
Inductive exit := Exit0 | Fatal | Panicked.

(** What a run leaves: the text on standard output, the line that
    [log.Fatal] logged, the file that [ioutil.WriteFile] wrote without error
    (path, content, mode) and how the run ended. *)
Record Run := mkRun {
  stdout : string;
  logged : option string;
  written : option (string * string * Z);
  status : exit
}.

(** [fmt.Sprintf(eventsAPI, username)]. *)
Definition eventsURL (username : string) : string :=
  "https://api.github.com/users/" +:+ username +:+ "/events".

(** [getDailyEvents], lines 58-99: the request, the body, the decoding and
    the loop over the events. *)
Definition getDailyEventsOf (w : World) (date username token : string)
  : fallible (list Event) :=
  let url := eventsURL username in
  match httpGet w url ("token " +:+ token) with
  | Error err => Error err
  | Value body =>
      match unmarshal w body with
      | Error err => Error err
      | Value events => Value (getDailyEvents date events)
      end
  end.

(** [main], lines 27-56.  Mode [0644] is 420. *)
Definition main (w : World) : Run :=
  if negb (dotenvLoads w) then
    mkRun "" (Some "Error loading .env file") None Fatal
  else
    let githubToken := getenv w "GITHUB_TOKEN" in
    let username := getenv w "GITHUB_USERNAME" in
    let today := Format_dateFormat (clockMain w) in
    match getDailyEventsOf w today username githubToken with
    | Error err => mkRun "" (Some err) None Fatal
    | Value dailyEvents =>
        match formatEvents (clockFormat w) (getenv w "GITHUB_USERNAME") dailyEvents with
        | Panic => mkRun "" None None Panicked
        | Ok report =>
            let out := report +:+ "
" in
            let reportFile := getenv w "REPORT_FILE" in
            match writeFile w reportFile report 420 with
            | Some err => mkRun out (Some err) None Fatal
            | None => mkRun out None (Some (reportFile, report, 420)) Exit0
            end
        end
    end.

(** The four statuses a line can carry. *)
Definition statuses : list string :=
  ["Done"; "In Review"; "Reviewed and merged"; "Reviewed"].

(** A world for the samples: the environment of user "me", a server that
    answers any request with one body, a decoder that reads that body as
    [sampleEvents], and a file system that accepts every write. *)
Definition sampleWorld : World :=
  mkWorld true
    (λ name, if bool_decide (name = "GITHUB_USERNAME") then "me"
             else if bool_decide (name = "GITHUB_TOKEN") then "t0ken"
             else if bool_decide (name = "REPORT_FILE") then "report.txt"
             else "")
    jan02 jan02
    (λ url authorization, Value "[...]")
    (λ body, Value sampleEvents)
    (λ path content mode, None).
(** * Proofs *)

(** ** Strings *)

Section strings.
Implicit Types s t u : string.

Lemma append_cons c s t : String c s +:+ t = String c (s +:+ t).
Proof. reflexivity. Qed.

Lemma append_assoc s t u : (s +:+ t) +:+ u = s +:+ (t +:+ u).
Proof. induction s as [|c s IH]; [done | by rewrite !append_cons, IH]. Qed.

Lemma append_nil_r s : s +:+ "" = s.
Proof. induction s as [|c s IH]; [done | by rewrite append_cons, IH]. Qed.

Lemma append_length s t :
  String.length (s +:+ t) = (String.length s + String.length t)%nat.
Proof. induction s as [|c s IH]; [done | rewrite append_cons; simpl; by rewrite IH]. Qed.

Lemma append_inv_nil s t : s +:+ t = s → t = "".
Proof.
  intros H. apply (f_equal String.length) in H. rewrite append_length in H.
  destruct t; [done | simpl in H; lia].
Qed.

Lemma append_inj_l s t u : s +:+ t = s +:+ u → t = u.
Proof. induction s as [|c s IH]; [done | rewrite !append_cons; intros [=]; auto]. Qed.
End strings.

(** ** The result monad and the loop *)

Lemma bind_Ok {A B} (f : A → result B) a : Ok a ≫= f = f a.
Proof. reflexivity. Qed.

Lemma bind_Panic {A B} (f : A → result B) : Panic ≫= f = Panic.
Proof. reflexivity. Qed.

Lemma ret_Ok {A} (a : A) : mret a = Ok a.
Proof. reflexivity. Qed.

Lemma bind_Ok_inv {A B} (f : A → result B) r b :
  r ≫= f = Ok b → ∃ a, r = Ok a ∧ f a = Ok b.
Proof. destruct r as [a|]; [eauto | done]. Qed.

Ltac simpl_result := rewrite ?bind_Ok, ?bind_Panic, ?ret_Ok.

Lemma foldM_app {A B} (f : A → B → result A) a l1 l2 :
  foldM f a (l1 ++ l2) = a' ← foldM f a l1; foldM f a' l2.
Proof.
  revert a. induction l1 as [|b l1 IH]; intros a; simpl; [done|].
  destruct (f a b); simpl_result; [apply IH | done].
Qed.

Lemma readAll_app l1 l2 :
  readAll (l1 ++ l2) = fs1 ← readAll l1; fs2 ← readAll l2; mret (fs1 ++ fs2).
Proof.
  induction l1 as [|e l1 IH]; simpl.
  - simpl_result. by destruct (readAll l2).
  - destruct (readFields e) as [o|]; simpl_result; [|done]. rewrite IH.
    destruct (readAll l1) as [fs1|]; simpl_result; [|done].
    destruct (readAll l2) as [fs2|]; simpl_result; [|done].
    by destruct o.
Qed.

Lemma formatStep_eq username st event :
  formatStep username st event =
  match readFields event with
  | Ok (Some f) => Ok (record username st f)
  | Ok None => Ok st
  | Panic => Panic
  end.
Proof. unfold formatStep. by destruct (readFields event) as [[f|]|]. Qed.

(** The loop reads the events and folds [record] over what it read. *)
Lemma foldM_formatStep username st events :
  foldM (formatStep username) st events =
  fs ← readAll events; mret (fold_left (record username) fs st).
Proof.
  revert st. induction events as [|e events IH]; intros st; simpl; [done|].
  rewrite formatStep_eq. destruct (readFields e) as [[f|]|]; simpl_result; [| |done].
  - rewrite IH. by destruct (readAll events).
  - rewrite IH. by destruct (readAll events).
Qed.

Lemma formatEvents_readAll now username events :
  formatEvents now username events =
  fs ← readAll events;
  mret ((fold_left (record username) fs (reportHead now, ∅)).1 +:+ reportTail).
Proof.
  unfold formatEvents. rewrite foldM_formatStep. by destruct (readAll events).
Qed.

(** ** The seen-title map *)

Lemma seen_empty t : seen ∅ t = false.
Proof. unfold seen. by rewrite lookup_empty. Qed.

Lemma seen_insert (m : gmap string bool) t t' :
  seen (<[t:=true]> m) t' = bool_decide (t = t') || seen m t'.
Proof.
  unfold seen. destruct (decide (t = t')) as [->|Hne].
  - by rewrite lookup_insert_eq, bool_decide_eq_true_2.
  - by rewrite lookup_insert_ne, bool_decide_eq_false_2.
Qed.

(** ** One iteration on the fields read *)

Lemma renderLines_app ls1 ls2 :
  renderLines (ls1 ++ ls2) = renderLines ls1 +:+ renderLines ls2.
Proof.
  induction ls1 as [|l ls1 IH]; simpl; [done|].
  by rewrite IH, append_assoc.
Qed.

Lemma record_eq username report (m : gmap string bool) f :
  record username (report, m) f =
  if seen m (prTitle f) then (report, m)
  else (report +:+ renderLines (option_list (lineOf username f)),
        <[prTitle f := true]> m).
Proof.
  unfold record, lineOf. destruct (seen m (prTitle f)); simpl; [done|].
  destruct (negb _ && negb _); simpl; by rewrite append_nil_r.
Qed.

Lemma filter_unseen_skip (m : gmap string bool) t (fs : list fields) :
  seen m t = true →
  filter (λ f, seen m (prTitle f) = false) (filter (λ g, prTitle g ≠ t) fs) =
  filter (λ f, seen m (prTitle f) = false) fs.
Proof.
  intros Ht. apply list_filter_filter_l. intros f Hf <-. congruence.
Qed.

Lemma filter_unseen_insert (m : gmap string bool) t (fs : list fields) :
  filter (λ f, seen m (prTitle f) = false) (filter (λ g, prTitle g ≠ t) fs) =
  filter (λ f, seen (<[t:=true]> m) (prTitle f) = false) fs.
Proof.
  rewrite list_filter_filter. apply list_filter_iff. intros f.
  rewrite seen_insert, orb_false_iff, bool_decide_eq_false. split.
  - intros [? ?]; split; [congruence | done].
  - intros [? ?]; split; [done | congruence].
Qed.

(** The report after the loop: the lines of the first mentions of the
    titles that were not seen before, appended in order. *)
Lemma fold_record_report username fs : ∀ report (m : gmap string bool),
  (fold_left (record username) fs (report, m)).1 =
  report +:+ renderLines (omap (lineOf username)
    (filter (λ f, seen m (prTitle f) = false) (firstMentions fs))).
Proof.
  induction fs as [|f fs IH]; intros report m; cbn [fold_left firstMentions].
  - by rewrite append_nil_r.
  - rewrite record_eq. destruct (seen m (prTitle f)) eqn:Hs.
    + rewrite IH, filter_cons_False by congruence.
      by rewrite filter_unseen_skip.
    + rewrite IH, filter_cons_True by done. simpl.
      rewrite filter_unseen_insert, append_assoc.
      destruct (lineOf username f) as [l|]; simpl; [|done].
      by rewrite append_assoc.
Qed.

Lemma fold_record_seen username fs : ∀ report (m : gmap string bool) t,
  seen (fold_left (record username) fs (report, m)).2 t =
  seen m t || bool_decide (t ∈ prTitle <$> fs).
Proof.
  induction fs as [|f fs IH]; intros report m t; cbn [fold_left fmap list_fmap].
  - rewrite bool_decide_eq_false_2; [by rewrite orb_false_r | by inv 1].
  - rewrite record_eq. destruct (seen m (prTitle f)) eqn:Hs; rewrite IH.
    + destruct (decide (t = prTitle f)) as [->|Hne].
      * rewrite Hs. done.
      * f_equal. apply bool_decide_ext. rewrite elem_of_cons. tauto.
    + rewrite seen_insert. destruct (decide (t = prTitle f)) as [->|Hne].
      * rewrite bool_decide_eq_true_2 by done. simpl.
        rewrite bool_decide_eq_true_2; [by rewrite orb_true_r | left].
      * rewrite (bool_decide_eq_false_2 (prTitle f = t)) by done. simpl.
        f_equal. apply bool_decide_ext. rewrite elem_of_cons. tauto.
Qed.

Lemma filter_unseen_empty (fs : list fields) :
  filter (λ f, seen (∅ : gmap string bool) (prTitle f) = false) fs = fs.
Proof.
  induction fs as [|f fs IH]; [done|].
  rewrite filter_cons_True by apply seen_empty. by rewrite IH.
Qed.

(** The report is its head, the classified entries and its tail. *)
Lemma formatEvents_classified now username events :
  formatEvents now username events =
  fs ← readAll events;
  mret (reportHead now +:+ renderLines (classified username fs) +:+ reportTail).
Proof.
  rewrite formatEvents_readAll. destruct (readAll events) as [fs|]; [|done].
  simpl_result. rewrite fold_record_report, filter_unseen_empty.
  by rewrite append_assoc.
Qed.

(** ** First mentions *)

Lemma firstMentions_sublist fs : firstMentions fs `sublist_of` fs.
Proof.
  induction fs as [|f fs IH]; simpl; [done|].
  apply sublist_skip. etrans; [apply sublist_filter | done].
Qed.

Lemma firstMentions_titles fs :
  prTitle <$> firstMentions fs = firstTitles (prTitle <$> fs).
Proof.
  induction fs as [|f fs IH]; [done|].
  cbn [firstMentions]. rewrite !fmap_cons. cbn [firstTitles]. f_equal.
  rewrite <- IH. generalize (firstMentions fs). intros l.
  induction l as [|g l IHl]; [done|].
  rewrite fmap_cons. destruct (decide (prTitle g ≠ prTitle f)).
  - rewrite !filter_cons_True by done. by rewrite fmap_cons, IHl.
  - rewrite !filter_cons_False by done. done.
Qed.

Lemma firstTitles_NoDup ts : NoDup (firstTitles ts).
Proof.
  induction ts as [|t ts IH]; simpl; [constructor|].
  apply NoDup_cons. split.
  - rewrite list_elem_of_filter. tauto.
  - by apply NoDup_filter.
Qed.

Lemma firstTitles_elem_of t ts : t ∈ firstTitles ts ↔ t ∈ ts.
Proof.
  induction ts as [|t' ts IH]; simpl; [done|].
  rewrite !elem_of_cons, list_elem_of_filter, IH.
  destruct (decide (t = t')); tauto.
Qed.

Lemma firstMentions_NoDup fs : NoDup (prTitle <$> firstMentions fs).
Proof. rewrite firstMentions_titles. apply firstTitles_NoDup. Qed.

(** An element of [firstMentions] is the first event with its title. *)
Lemma firstMentions_elem_of f fs :
  f ∈ firstMentions fs ↔
  ∃ fs1 fs2, fs = fs1 ++ f :: fs2 ∧ (prTitle f ∉ prTitle <$> fs1).
Proof.
  revert f. induction fs as [|g fs IH]; intros f; simpl.
  - rewrite elem_of_nil. split; [done|].
    intros (fs1 & fs2 & H & _). by destruct fs1.
  - rewrite elem_of_cons, list_elem_of_filter, IH. split.
    + intros [->|(Hne & fs1 & fs2 & -> & Hnot)].
      * exists [], fs. split; [done|]. simpl. apply not_elem_of_nil.
      * exists (g :: fs1), fs2. split; [done|].
        rewrite fmap_cons, not_elem_of_cons. done.
    + intros (fs1 & fs2 & Heq & Hnot). destruct fs1 as [|g' fs1]; simpl in Heq.
      * left. congruence.
      * injection Heq as -> ->. right.
        rewrite fmap_cons, not_elem_of_cons in Hnot. destruct Hnot as [Hne Hnot].
        split; [done|]. by exists fs1, fs2.
Qed.

(** ** The classified entries *)

Lemma lineOf_Some username f s t :
  lineOf username f = Some (s, t) ↔
  s = statusOf username f ∧ t = prTitle f ∧ s ≠ "" ∧ t ≠ "".
Proof.
  unfold lineOf.
  destruct (decide (statusOf username f = "")) as [Hs|Hs];
    destruct (decide (prTitle f = "")) as [Ht|Ht];
    rewrite ?(bool_decide_eq_true_2 _ Hs), ?(bool_decide_eq_false_2 _ Hs),
      ?(bool_decide_eq_true_2 _ Ht), ?(bool_decide_eq_false_2 _ Ht); simpl;
    split; try done; try (intros (-> & -> & ? & ?); done).
  intros [= <- <-]. done.
Qed.

Lemma classified_titles username fs :
  (classified username fs).*2 =
  prTitle <$> filter (λ f, is_Some (lineOf username f)) (firstMentions fs).
Proof.
  unfold classified. generalize (firstMentions fs). intros l.
  induction l as [|f l IH]; [done|].
  cbn [omap list_omap]. destruct (lineOf username f) as [[s t]|] eqn:Hl.
  - rewrite filter_cons_True by (rewrite Hl; eauto).
    apply lineOf_Some in Hl as (_ & -> & _ & _).
    rewrite !fmap_cons. f_equal. apply IH.
  - rewrite filter_cons_False by (by inv 1). apply IH.
Qed.

Lemma classified_elem_of username fs s t :
  (s, t) ∈ classified username fs ↔
  ∃ fs1 f fs2, fs = fs1 ++ f :: fs2 ∧ (prTitle f ∉ prTitle <$> fs1) ∧
    t = prTitle f ∧ s = statusOf username f ∧ s ≠ "" ∧ t ≠ "".
Proof.
  unfold classified. rewrite list_elem_of_omap. split.
  - intros (f & (fs1 & fs2 & -> & Hnot)%firstMentions_elem_of & Hl%lineOf_Some).
    exists fs1, f, fs2. tauto.
  - intros (fs1 & f & fs2 & -> & Hnot & Ht & Hs & ? & ?). exists f. split.
    + apply firstMentions_elem_of. eauto.
    + apply lineOf_Some. done.
Qed.

(** ** Events that are not pull-request events *)

Lemma extract_other eventType event :
  isPullRequestType eventType = false →
  extract eventType event = Ok (mkFields "" "" "" false).
Proof.
  unfold isPullRequestType, extract. intros [H1 H2]%orb_false_iff.
  by rewrite H1, H2.
Qed.

Lemma readFields_notPullRequest event :
  notPullRequest event = true →
  readFields event = Ok None ∨ readFields event = Ok (Some (mkFields "" "" "" false)).
Proof.
  unfold notPullRequest, readFields. intros H.
  destruct (event !! "type") as [[| | |s| |]|]; simpl; auto.
  right. apply negb_true_iff in H. by rewrite extract_other.
Qed.

Lemma record_empty_title username st f :
  prTitle f = "" → agree (record username st f) st.
Proof.
  intros Ht. destruct st as [report m]. rewrite record_eq.
  destruct (seen m (prTitle f)); [done|].
  assert (lineOf username f = None) as ->.
  { unfold lineOf. rewrite Ht. simpl. by rewrite andb_false_r. }
  simpl. split; simpl; [by rewrite append_nil_r|].
  intros t Hne. rewrite seen_insert, bool_decide_eq_false_2; [done | congruence].
Qed.

Lemma record_agree username st1 st2 f :
  agree st1 st2 → agree (record username st1 f) (record username st2 f).
Proof.
  destruct st1 as [r1 m1], st2 as [r2 m2]. intros [Hr Hm]; simpl in Hr, Hm. subst r2.
  destruct (decide (prTitle f = "")) as [Ht|Ht].
  - pose proof (record_empty_title username (r1, m1) f Ht) as [E1 E1'].
    pose proof (record_empty_title username (r1, m2) f Ht) as [E2 E2'].
    cbn [fst snd] in E1, E1', E2, E2'. split; [cbn [fst]; congruence|]. cbn [snd].
    intros t Hne. rewrite E1', E2' by done. auto.
  - rewrite !record_eq, <- (Hm _ Ht). destruct (seen m1 (prTitle f)).
    + by split.
    + split; [done|]. simpl. intros t Hne. rewrite !seen_insert. f_equal. auto.
Qed.

Lemma agree_refl st : agree st st.
Proof. by split. Qed.

Lemma agree_trans st1 st2 st3 : agree st1 st2 → agree st2 st3 → agree st1 st3.
Proof.
  intros [H1 H1'] [H2 H2']. split; [congruence|].
  intros t Hne. rewrite H1', H2'; auto.
Qed.

Lemma formatStep_agree username st1 st2 event :
  agree st1 st2 →
  resultRel agree (formatStep username st1 event) (formatStep username st2 event).
Proof.
  intros H. rewrite !formatStep_eq. destruct (readFields event) as [[f|]|]; simpl;
    auto using record_agree.
Qed.

Lemma foldM_formatStep_agree username events : ∀ st1 st2,
  agree st1 st2 →
  resultRel agree (foldM (formatStep username) st1 events)
                  (foldM (formatStep username) st2 events).
Proof.
  induction events as [|e events IH]; intros st1 st2 H; simpl; [done|].
  pose proof (formatStep_agree username st1 st2 e H) as He.
  destruct (formatStep username st1 e) as [a1|], (formatStep username st2 e) as [a2|];
    simpl in He; try done; simpl_result; auto.
Qed.

(** A step on an event that is not a pull-request event never panics and
    leaves a state that agrees with the one before. *)
Lemma formatStep_notPullRequest username st event :
  notPullRequest event = true →
  ∃ st', formatStep username st event = Ok st' ∧ agree st' st.
Proof.
  intros [H|H]%readFields_notPullRequest; rewrite formatStep_eq, H.
  - eauto using agree_refl.
  - eexists; split; [done|]. by apply record_empty_title.
Qed.

Lemma formatStep_ref_notPullRequest username st event :
  notPullRequest event = true → formatStep_ref username st event = Ok st.
Proof.
  unfold notPullRequest, formatStep_ref. intros H.
  destruct (event !! "type") as [[| | |s| |]|]; simpl; auto.
  unfold isPullRequestType in H. by rewrite H.
Qed.

Lemma formatStep_ref_pullRequest username st event :
  notPullRequest event = false →
  formatStep_ref username st event = formatStep username st event.
Proof.
  unfold notPullRequest, formatStep_ref, formatStep, readFields. intros H.
  destruct (event !! "type") as [[| | |s| |]|] eqn:E; simpl; try done.
  unfold isPullRequestType in H. rewrite H. simpl.
  by destruct (extract s event).
Qed.

Lemma foldM_formatStep_ref_agree username events : ∀ st1 st2,
  agree st1 st2 →
  resultRel agree (foldM (formatStep username) st1 events)
                  (foldM (formatStep_ref username) st2 events).
Proof.
  induction events as [|e events IH]; intros st1 st2 H; simpl; [done|].
  destruct (notPullRequest e) eqn:Hn.
  - destruct (formatStep_notPullRequest username st1 e Hn) as (st' & -> & Hst').
    rewrite formatStep_ref_notPullRequest by done. simpl_result.
    apply IH. eauto using agree_trans.
  - rewrite formatStep_ref_pullRequest by done.
    pose proof (formatStep_agree username st1 st2 e H) as He.
    destruct (formatStep username st1 e) as [a1|], (formatStep username st2 e) as [a2|];
      simpl in He; try done; simpl_result; auto.
Qed.

Lemma formatEvents_ref_eq now username events :
  formatEvents now username events = formatEvents_ref now username events.
Proof.
  unfold formatEvents, formatEvents_ref.
  pose proof (foldM_formatStep_ref_agree username events _ _
                (agree_refl (reportHead now, ∅))) as H.
  destruct (foldM (formatStep username) _ events) as [a1|],
           (foldM (formatStep_ref username) _ events) as [a2|]; simpl in H; try done.
  destruct H as [H _]. simpl_result. cbv beta. by rewrite H.
Qed.

Lemma formatEvents_ref_remove now username l1 e l2 :
  notPullRequest e = true →
  formatEvents_ref now username (l1 ++ e :: l2) = formatEvents_ref now username (l1 ++ l2).
Proof.
  intros H. unfold formatEvents_ref. rewrite !foldM_app.
  destruct (foldM (formatStep_ref username) _ l1) as [st|]; simpl_result; [|done].
  simpl. by rewrite formatStep_ref_notPullRequest by done.
Qed.

Lemma formatEvents_remove now username l1 e l2 :
  notPullRequest e = true →
  formatEvents now username (l1 ++ e :: l2) = formatEvents now username (l1 ++ l2).
Proof. intros H. rewrite !formatEvents_ref_eq. by apply formatEvents_ref_remove. Qed.

(** ** The daily filter as a filter *)

Lemma dailyStep_eq date dailyEvents event :
  dailyStep date dailyEvents event =
  dailyEvents ++ (if keeps date event then [event] else []).
Proof.
  unfold dailyStep, keeps, assertString.
  destruct (event !! "created_at") as [[| | |s| |]|]; simpl; rewrite ?app_nil_r; try done.
  destruct (Parse_RFC3339 s) as [t|]; rewrite ?app_nil_r; [|done].
  destruct (bool_decide _); by rewrite ?app_nil_r.
Qed.

Lemma getDailyEvents_filter date events :
  getDailyEvents date events = filter (λ e, keeps date e = true) events.
Proof.
  unfold getDailyEvents.
  enough (∀ acc, fold_left (dailyStep date) events acc =
                 acc ++ filter (λ e, keeps date e = true) events) as H by apply H.
  induction events as [|e events IH]; intros acc; simpl.
  - by rewrite app_nil_r.
  - rewrite IH, dailyStep_eq, <- app_assoc. f_equal.
    destruct (keeps date e) eqn:Hk.
    + by rewrite filter_cons_True.
    + rewrite filter_cons_False; [done | congruence].
Qed.

Lemma keeps_createdAtUnusable date event :
  createdAtUnusable event = true → keeps date event = false.
Proof.
  unfold createdAtUnusable, keeps. intros H.
  destruct (event !! "created_at") as [[| | |s| |]|]; try done.
  by destruct (Parse_RFC3339 s).
Qed.

(** ** The status switch and the table of rules *)

Lemma statusOf_rules username f :
  statusOf username f =
  if rule 1 username f then ruleStatus 1
  else if rule 2 username f then ruleStatus 2
  else if rule 3 username f then ruleStatus 3
  else if rule 4 username f then ruleStatus 4
  else if rule 5 username f then ruleStatus 5
  else if rule 6 username f then ruleStatus 6
  else "".
Proof. reflexivity. Qed.

Lemma rule_range k username f : rule k username f = true → (1 ≤ k ≤ 6)%nat.
Proof. do 7 (destruct k as [|k]; [simpl; first [done | lia]|]). done. Qed.

Lemma ruleStatus_nonempty k : (1 ≤ k ≤ 6)%nat → ruleStatus k ≠ "".
Proof. do 7 (destruct k as [|k]; [simpl; first [done | lia]|]). lia. Qed.

Lemma firstRule_first username f k :
  rule k username f = true →
  (∀ j, (j < k)%nat → rule j username f = false) →
  firstRule username f = Some k.
Proof.
  intros Hk Hlt. unfold firstRule.
  pose proof (rule_range _ _ _ Hk) as Hr.
  assert (∀ j, (1 ≤ j ≤ 6)%nat → [1; 2; 3; 4; 5; 6]%nat !! (j - 1)%nat = Some j) as Hnth.
  { intros j Hj. do 7 (destruct j as [|j]; [first [lia | done]|]). lia. }
  rewrite (proj2 (list_find_Some _ _ (k - 1)%nat k)); [done|].
  split_and!; [by apply Hnth | done |].
  intros j y Hy Hj Hrule. pose proof (rule_range _ _ _ Hrule) as Hyr.
  assert (j = (y - 1)%nat) as ->.
  { apply (NoDup_lookup [1; 2; 3; 4; 5; 6]%nat _ _ y); [|done|by apply Hnth].
    repeat (apply NoDup_cons; split; [rewrite ?elem_of_cons, ?elem_of_nil; lia|]).
    constructor. }
  rewrite Hlt in Hrule; [done | lia].
Qed.

Lemma statusOf_first username f k :
  rule k username f = true →
  (∀ j, (j < k)%nat → rule j username f = false) →
  statusOf username f = ruleStatus k.
Proof.
  intros Hk Hlt. rewrite statusOf_rules.
  pose proof (rule_range _ _ _ Hk) as Hr.
  do 7 (destruct k as [|k];
        [first [lia | rewrite ?Hlt, ?Hk by lia; reflexivity]|]).
  lia.
Qed.

Lemma statusOf_none username f :
  (∀ k, rule k username f = false) → statusOf username f = "".
Proof. intros H. rewrite statusOf_rules. by rewrite !H. Qed.

Lemma record_unseen username report (m : gmap string bool) f :
  seen m (prTitle f) = false →
  record username (report, m) f =
  (if negb (bool_decide (statusOf username f = "")) && negb (bool_decide (prTitle f = ""))
   then report +:+ reportLine (statusOf username f) (prTitle f)
   else report,
   <[prTitle f := true]> m).
Proof. intros H. unfold record. rewrite H. simpl. by destruct (_ && _). Qed.

Lemma record_seen username report (m : gmap string bool) f :
  seen m (prTitle f) = true → record username (report, m) f = (report, m).
Proof. intros H. unfold record. by rewrite H. Qed.

Lemma reportLine_nonempty s t : reportLine s t ≠ "".
Proof. done. Qed.

(** C1: the classifier assigns the status by the six rules as a strict
    priority chain.  When rule [k] is the first rule of the table that an
    event satisfies, the status is rule [k]'s status whichever of the rules
    after [k] the event satisfies as well, and that status is the one
    written into the line of a new, non-empty title. *)
Theorem statusOf_priority_chain username f k :
  rule k username f = true →
  (∀ j, (j < k)%nat → rule j username f = false) →
  firstRule username f = Some k ∧
  statusOf username f = ruleStatus k ∧
  ∀ report (seenTitles : gmap string bool),
    seen seenTitles (prTitle f) = false → prTitle f ≠ "" →
    record username (report, seenTitles) f =
    (report +:+ reportLine (ruleStatus k) (prTitle f), <[prTitle f := true]> seenTitles).
Proof.
  intros Hk Hlt. split_and!.
  - by apply firstRule_first.
  - by apply statusOf_first.
  - intros report m Hs Ht. rewrite record_unseen by done.
    rewrite (statusOf_first _ _ k) by done.
    rewrite (bool_decide_eq_false_2 (ruleStatus k = ""))
      by eauto using ruleStatus_nonempty, rule_range.
    by rewrite (bool_decide_eq_false_2 (prTitle f = "")).
Qed.

(** An event by the user, opened and merged, satisfies rules 1, 2 and 4 and
    is reported "Done" by rule 1. *)
Lemma statusOf_priority_chain_witness :
  let f := mkFields "Add feature X" "opened" "me" true in
  rule 1 "me" f = true ∧ rule 2 "me" f = true ∧ rule 4 "me" f = true ∧
  firstRule "me" f = Some 1%nat ∧ statusOf "me" f = "Done".
Proof.
  intros f.
  destruct (statusOf_priority_chain "me" f 1) as (H1 & H2 & _).
  - reflexivity.
  - intros j Hj. assert (j = 0%nat) as -> by lia. reflexivity.
  - split_and!; [reflexivity | reflexivity | reflexivity | exact H1 | exact H2].
Defined.

(** ** Single events and the empty list *)

Lemma readFields_extract event eventType f :
  event !! "type" = Some (VString eventType) →
  extract eventType event = Ok f →
  readFields event = Ok (Some f).
Proof. intros Ht He. unfold readFields. rewrite Ht. simpl. by rewrite He. Qed.

Lemma formatEvents_nil now username :
  formatEvents now username [] = Ok (reportHead now +:+ reportTail).
Proof. reflexivity. Qed.

Lemma formatEvents_single now username event f :
  readFields event = Ok (Some f) →
  formatEvents now username [event] =
  Ok (reportHead now +:+ renderLines (option_list (lineOf username f)) +:+ reportTail).
Proof.
  intros H. rewrite formatEvents_classified. simpl. rewrite H. simpl_result.
  unfold classified. simpl. by destruct (lineOf username f).
Qed.

(** C6: one PullRequestEvent with action "closed", merged false, an author
    other than the user and the title "Fix bug Y" gives the line
    "• Reviewed | Fix bug Y": rule 5 fails on merged, rule 6 holds. *)
Theorem closed_unmerged_by_other_is_Reviewed now username event f :
  event !! "type" = Some (VString "PullRequestEvent") →
  extract "PullRequestEvent" event = Ok f →
  action f = "closed" → merged f = false → author f ≠ username →
  prTitle f = "Fix bug Y" →
  rule 5 username f = false ∧ rule 6 username f = true ∧
  formatEvents now username [event] =
  Ok (reportHead now +:+ "• Reviewed | Fix bug Y
" +:+ reportTail).
Proof.
  intros Ht He Ha Hm Hau Hti.
  assert (rule 6 username f = true) as H6.
  { simpl. by rewrite Ha, bool_decide_eq_true_2. }
  assert (∀ j, (j < 6)%nat → rule j username f = false) as Hlt.
  { intros j Hj. do 6 (destruct j as [|j]; [simpl; rewrite ?Hm, ?andb_false_r;
      rewrite ?(bool_decide_eq_false_2 (author f = username)) by done; done|]). lia. }
  split_and!; [apply Hlt; lia | done |].
  rewrite (formatEvents_single _ _ _ f) by eauto using readFields_extract.
  unfold lineOf. rewrite (statusOf_first _ _ 6), Hti by done. reflexivity.
Qed.

Lemma closed_unmerged_by_other_is_Reviewed_witness :
  formatEvents jan02 "me"
    [prEvent "2024-01-02T09:30:00Z" "closed" "Fix bug Y" "octocat" false] =
  Ok "Jan 02, 2024:
• Done | Attended frail-check meeting
• Done | Attended frail-check followup meeting
• Reviewed | Fix bug Y
Next:
• Continue with assigned task and R&D
".
Proof.
  refine (proj2 (proj2 (closed_unmerged_by_other_is_Reviewed jan02 "me"
    (prEvent "2024-01-02T09:30:00Z" "closed" "Fix bug Y" "octocat" false)
    (mkFields "Fix bug Y" "closed" "octocat" false) _ _ _ _ _ _)));
    first [reflexivity | vm_compute; discriminate].
Defined.

(** C10: with an empty configured username, an event whose author is
    empty is classified by the user's own rules; merged, with a new
    non-empty title, it is reported "Done": rule 4 holds and neither rule of
    the other side does. *)
Theorem empty_username_matches_empty_author event eventType f report
    (seenTitles : gmap string bool) :
  event !! "type" = Some (VString eventType) →
  extract eventType event = Ok f →
  author f = "" → merged f = true →
  prTitle f ≠ "" → seen seenTitles (prTitle f) = false →
  rule 4 "" f = true ∧ rule 5 "" f = false ∧ rule 6 "" f = false ∧
  (action f ≠ "opened" → action f ≠ "closed" → firstRule "" f = Some 4%nat) ∧
  statusOf "" f = "Done" ∧
  formatStep "" (report, seenTitles) event =
  Ok (report +:+ reportLine "Done" (prTitle f), <[prTitle f := true]> seenTitles).
Proof.
  intros Ht He Ha Hm Hti Hs.
  assert (statusOf "" f = "Done") as Hst.
  { unfold statusOf. rewrite Ha, Hm. simpl.
    destruct (bool_decide (action f = "opened")); [done|].
    by destruct (bool_decide (action f = "closed")). }
  split_and!.
  - simpl. by rewrite Ha, Hm.
  - simpl. by rewrite Ha.
  - simpl. by rewrite Ha.
  - intros Ho Hc. apply firstRule_first.
    + simpl. by rewrite Ha, Hm.
    + intros j Hj. do 4 (destruct j as [|j]; [simpl;
        rewrite ?(bool_decide_eq_false_2 (action f = "opened")) by done;
        rewrite ?(bool_decide_eq_false_2 (action f = "closed")) by done;
        by rewrite ?andb_false_r|]). lia.
  - done.
  - rewrite formatStep_eq, (readFields_extract _ _ _ Ht He), record_unseen by done.
    rewrite Hst. by rewrite (bool_decide_eq_false_2 (prTitle f = "")).
Qed.

Lemma empty_username_matches_empty_author_witness :
  let event := prEventNoLogin "2024-01-02T09:30:00Z" "reopened" "Bump deps" true in
  formatStep "" ("", ∅) event =
  Ok ("• Done | Bump deps
", {[ "Bump deps" := true ]}).
Proof.
  intros event.
  refine (proj2 (proj2 (proj2 (proj2 (proj2
    (empty_username_matches_empty_author event "PullRequestEvent"
       (mkFields "Bump deps" "reopened" "" true) "" ∅ _ _ _ _ _ _))))));
    first [reflexivity | vm_compute; discriminate].
Defined.

(** ** Seen titles stay seen *)

Lemma record_seen_mono username st f t :
  seen st.2 t = true → seen (record username st f).2 t = true.
Proof.
  destruct st as [report m]. rewrite record_eq. cbn [snd]. intros H.
  destruct (seen m (prTitle f)); cbn [snd]; [done|].
  by rewrite seen_insert, H, orb_true_r.
Qed.

Lemma fold_record_seen_mono username fs st t :
  seen st.2 t = true → seen (fold_left (record username) fs st).2 t = true.
Proof.
  revert st. induction fs as [|f fs IH]; intros st H; cbn [fold_left]; [done|].
  by apply IH, record_seen_mono.
Qed.

(** C3: when the title of an event has not been seen, the line
    (status, title) is appended iff the status and the title are both
    non-empty, and the report is left as it is otherwise; in both cases the
    title is marked seen, so that an event with the same title, however much
    later, changes neither the report nor the seen titles. *)
Theorem line_emitted_iff_both_nonempty username report
    (seenTitles : gmap string bool) f :
  seen seenTitles (prTitle f) = false →
  let st' := record username (report, seenTitles) f in
  (st'.1 = report +:+ reportLine (statusOf username f) (prTitle f) ↔
     statusOf username f ≠ "" ∧ prTitle f ≠ "") ∧
  (st'.1 = report ↔ statusOf username f = "" ∨ prTitle f = "") ∧
  seen st'.2 (prTitle f) = true ∧
  ∀ fs f', prTitle f' = prTitle f →
    record username (fold_left (record username) fs st') f' =
    fold_left (record username) fs st'.
Proof.
  intros Hs st'. subst st'. rewrite record_unseen by done. cbn [fst snd].
  assert (∀ s, report +:+ reportLine s (prTitle f) ≠ report) as Hne.
  { intros s H. by apply append_inv_nil in H. }
  split_and!.
  - destruct (decide (statusOf username f = "")) as [E1|E1];
      destruct (decide (prTitle f = "")) as [E2|E2];
      rewrite ?(bool_decide_eq_true_2 _ E1), ?(bool_decide_eq_false_2 _ E1),
        ?(bool_decide_eq_true_2 _ E2), ?(bool_decide_eq_false_2 _ E2); simpl;
      split; try tauto; intros H; symmetry in H; by apply Hne in H.
  - destruct (decide (statusOf username f = "")) as [E1|E1];
      destruct (decide (prTitle f = "")) as [E2|E2];
      rewrite ?(bool_decide_eq_true_2 _ E1), ?(bool_decide_eq_false_2 _ E1),
        ?(bool_decide_eq_true_2 _ E2), ?(bool_decide_eq_false_2 _ E2); simpl;
      split; try tauto. intros H. by apply Hne in H.
  - by rewrite seen_insert, bool_decide_eq_true_2.
  - intros fs f' Ht.
    destruct (fold_left _ fs _) as [r2 m2] eqn:E.
    apply record_seen. rewrite Ht.
    change m2 with (r2, m2).2. rewrite <- E.
    apply fold_record_seen_mono. cbn [snd].
    by rewrite seen_insert, bool_decide_eq_true_2.
Qed.

(** Scenario D on the fields: the first event with the title has no status,
    the second would match rule 2, and no line is written. *)
Lemma line_emitted_iff_both_nonempty_witness :
  let f := mkFields "Refactor Z" "reopened" "me" false in
  let f' := mkFields "Refactor Z" "opened" "me" false in
  statusOf "me" f = "" ∧ statusOf "me" f' = "In Review" ∧
  (record "me" ("", ∅) f).1 = "" ∧
  record "me" (record "me" ("", ∅) f) f' = record "me" ("", ∅) f.
Proof.
  intros f f'.
  destruct (line_emitted_iff_both_nonempty "me" "" ∅ f) as (_ & H2 & _ & H4).
  - reflexivity.
  - split_and!; [reflexivity | reflexivity | | exact (H4 [] f' eq_refl)].
    apply H2. left. reflexivity.
Defined.

(** Scenario D on the events. *)
Example scenario_D :
  formatEvents jan02 "me"
    [prEvent "2024-01-02T09:00:00Z" "reopened" "Refactor Z" "me" false;
     prEvent "2024-01-02T09:30:00Z" "opened" "Refactor Z" "me" false] =
  Ok (reportHead jan02 +:+ reportTail).
Proof. reflexivity. Qed.

(** ** Refinement of the loop that skips other events first *)

(** C9: the loop as written, where an event of another type runs through
    the seen-title check with an empty title, gives for every list of events
    the same result as the reference loop that skips such an event before
    the check. *)
Theorem formatEvents_refines_skipping_reference now username events :
  formatEvents now username events = formatEvents_ref now username events.
Proof. apply formatEvents_ref_eq. Qed.

(** ** Events that are skipped *)

Lemma getDailyEvents_app date l1 l2 :
  getDailyEvents date (l1 ++ l2) = getDailyEvents date l1 ++ getDailyEvents date l2.
Proof. by rewrite !getDailyEvents_filter, filter_app. Qed.

Lemma getDailyEvents_cons date e l :
  getDailyEvents date (e :: l) =
  (if keeps date e then [e] else []) ++ getDailyEvents date l.
Proof.
  rewrite !getDailyEvents_filter. destruct (keeps date e) eqn:Hk.
  - by rewrite filter_cons_True.
  - rewrite filter_cons_False; [done | congruence].
Qed.

Lemma getDailyEvents_remove date l1 e l2 :
  createdAtUnusable e = true →
  getDailyEvents date (l1 ++ e :: l2) = getDailyEvents date (l1 ++ l2).
Proof.
  intros H. rewrite !getDailyEvents_app, getDailyEvents_cons.
  by rewrite keeps_createdAtUnusable.
Qed.

Lemma dailyReport_remove today now username l1 e l2 :
  createdAtUnusable e || notPullRequest e = true →
  dailyReport today now username (l1 ++ e :: l2) = dailyReport today now username (l1 ++ l2).
Proof.
  unfold dailyReport. intros [H|H]%orb_true_iff.
  - by rewrite getDailyEvents_remove.
  - rewrite !getDailyEvents_app, getDailyEvents_cons.
    destruct (keeps _ e); [|done]. by apply formatEvents_remove.
Qed.

(** A list made only of skipped events gives the report of the empty list. *)
Lemma dailyReport_all_skipped today now username events :
  Forall (λ e, createdAtUnusable e || notPullRequest e = true) events →
  dailyReport today now username events = Ok (reportHead now +:+ reportTail).
Proof.
  induction 1 as [|e events He _ IH]; [done|].
  change (e :: events) with ([] ++ e :: events).
  by rewrite dailyReport_remove.
Qed.

(** C8: an event whose [created_at] is missing, is not a string or does not
    parse, and an event whose type is not one of the two pull-request types,
    is skipped silently: the outcome with the event in the list, report or
    failure, is the outcome without it.  The first kind is left out of the
    daily events; on the second the loop body does not fail and leaves the
    report as it was. *)
Theorem skipped_events_are_silent today now username l1 e l2 :
  createdAtUnusable e || notPullRequest e = true →
  dailyReport today now username (l1 ++ e :: l2) = dailyReport today now username (l1 ++ l2) ∧
  (createdAtUnusable e = true →
     ∀ date, keeps date e = false ∧
       getDailyEvents date (l1 ++ e :: l2) = getDailyEvents date (l1 ++ l2)) ∧
  (notPullRequest e = true →
     (∀ st, ∃ st', formatStep username st e = Ok st' ∧ st'.1 = st.1) ∧
     formatEvents now username (l1 ++ e :: l2) = formatEvents now username (l1 ++ l2)).
Proof.
  intros H. split_and!.
  - by apply dailyReport_remove.
  - intros Hc date. split; [by apply keeps_createdAtUnusable|].
    by apply getDailyEvents_remove.
  - intros Hn. split; [|by apply formatEvents_remove].
    intros st. destruct (formatStep_notPullRequest username st e Hn) as (st' & E & [E' _]).
    eauto.
Qed.

Lemma skipped_events_are_silent_witness :
  dailyReport jan02 jan02 "me"
    [prEvent "2024-01-02T09:30:00Z" "closed" "Fix bug Y" "octocat" false;
     otherEvent "2024-01-02T09:40:00Z" "PushEvent";
     prEvent "2024-01-02T09:50:00Z" "opened" "Add feature X" "me" true] =
  dailyReport jan02 jan02 "me"
    [prEvent "2024-01-02T09:30:00Z" "closed" "Fix bug Y" "octocat" false;
     prEvent "2024-01-02T09:50:00Z" "opened" "Add feature X" "me" true].
Proof.
  refine (proj1 (skipped_events_are_silent jan02 jan02 "me"
    [prEvent "2024-01-02T09:30:00Z" "closed" "Fix bug Y" "octocat" false]
    (otherEvent "2024-01-02T09:40:00Z" "PushEvent")
    [prEvent "2024-01-02T09:50:00Z" "opened" "Add feature X" "me" true] _)).
  reflexivity.
Defined.

(** An event without [created_at] that would panic in the classifier never
    reaches it. *)
Example missing_created_at_is_dropped :
  let e : Event := {[ "type" := VString "PullRequestEvent" ]} in
  formatEvents jan02 "me" [e] = Panic ∧
  dailyReport jan02 jan02 "me" [e] = Ok (reportHead jan02 +:+ reportTail).
Proof. split; reflexivity. Qed.

(** ** Order *)

Lemma firstIndex_cons t t' ts :
  firstIndex t (t' :: ts) =
  if decide (t' = t) then Some 0%nat else S <$> firstIndex t ts.
Proof.
  unfold firstIndex. cbn [list_find]. destruct (decide (t' = t)); [done|].
  by destruct (list_find _ ts) as [[i x]|].
Qed.

Lemma firstIndex_elem_of t ts : t ∈ ts → is_Some (firstIndex t ts).
Proof.
  induction 1 as [t ts|t t' ts _ IH]; rewrite firstIndex_cons.
  - rewrite decide_True by done. eauto.
  - destruct (decide (t' = t)); [eauto|]. destruct IH as [i ->]. eauto.
Qed.

(** A sublist keeps the relative order of its elements. *)
Lemma sublist_lookup_order {A} (l1 l2 : list A) :
  l1 `sublist_of` l2 →
  (∀ i x, l1 !! i = Some x → ∃ i', l2 !! i' = Some x) ∧
  ∀ i j x y, (i < j)%nat → l1 !! i = Some x → l1 !! j = Some y →
    ∃ i' j', (i' < j')%nat ∧ l2 !! i' = Some x ∧ l2 !! j' = Some y.
Proof.
  induction 1 as [|a l1 l2 Hsub [IH1 IH2]|a l1 l2 Hsub [IH1 IH2]].
  - split; intros; by simplify_eq/=.
  - split.
    + intros [|i] x Hx; simplify_eq/=; [by exists 0%nat|].
      destruct (IH1 _ _ Hx) as [i' ?]. by exists (S i').
    + intros [|i] [|j] x y Hij Hx Hy; simplify_eq/=; try lia.
      * destruct (IH1 _ _ Hy) as [j' ?]. exists 0%nat, (S j'). split_and!; [lia|done..].
      * destruct (IH2 i j x y) as (i' & j' & ? & ? & ?); [lia|done..|].
        exists (S i'), (S j'). split_and!; [lia|done..].
  - split.
    + intros i x Hx. destruct (IH1 _ _ Hx) as [i' ?]. by exists (S i').
    + intros i j x y Hij Hx Hy.
      destruct (IH2 i j x y) as (i' & j' & ? & ? & ?); [done..|].
      exists (S i'), (S j'). split_and!; [lia|done..].
Qed.

(** In [firstTitles], a title stands before another iff its first
    occurrence does. *)
Lemma firstTitles_order ts : ∀ i j x y,
  (i < j)%nat → firstTitles ts !! i = Some x → firstTitles ts !! j = Some y →
  ∃ a b, firstIndex x ts = Some a ∧ firstIndex y ts = Some b ∧ (a < b)%nat.
Proof.
  induction ts as [|t ts IH]; intros i j x y Hij Hx Hy; [done|].
  cbn [firstTitles] in Hx, Hy. rewrite !firstIndex_cons.
  pose proof (sublist_lookup_order _ _
    (sublist_filter (λ t', t' ≠ t) (firstTitles ts))) as [S1 S2].
  assert (∀ k z, filter (λ t', t' ≠ t) (firstTitles ts) !! k = Some z →
                 z ≠ t ∧ z ∈ ts) as Hin.
  { intros k z Hz. apply list_elem_of_lookup_2, list_elem_of_filter in Hz.
    by rewrite firstTitles_elem_of in Hz. }
  destruct j as [|j]; [lia|]. cbn [lookup list_lookup] in Hy.
  destruct (Hin _ _ Hy) as [Hyt Hyin].
  destruct i as [|i].
  - injection Hx as <-. rewrite decide_True, decide_False by done.
    destruct (firstIndex_elem_of _ _ Hyin) as [b ->].
    exists 0%nat, (S b). split_and!; [done..|lia].
  - cbn [lookup list_lookup] in Hx. destruct (Hin _ _ Hx) as [Hxt Hxin].
    rewrite !decide_False by done.
    destruct (S2 i j x y) as (i' & j' & Hij' & Hx' & Hy'); [lia|done..|].
    destruct (IH _ _ _ _ Hij' Hx' Hy') as (a & b & -> & -> & Hab).
    exists (S a), (S b). split_and!; [done..|lia].
Qed.

Lemma classified_titles_sublist username fs :
  (classified username fs).*2 `sublist_of` firstTitles (prTitle <$> fs).
Proof.
  rewrite classified_titles, <- firstMentions_titles.
  apply fmap_sublist, sublist_filter.
Qed.

(** C5: the daily filter keeps the events it keeps in their original order,
    each once, and the classified lines stand in the report in the order in
    which their titles first occur among the daily events. *)
Theorem order_is_preserved now date username events fs :
  readAll (getDailyEvents date events) = Ok fs →
  getDailyEvents date events = filter (λ e, keeps date e = true) events ∧
  getDailyEvents date events `sublist_of` events ∧
  formatEvents now username (getDailyEvents date events) =
    Ok (reportHead now +:+ renderLines (classified username fs) +:+ reportTail) ∧
  (classified username fs).*2 `sublist_of` firstTitles (prTitle <$> fs) ∧
  ∀ i j ti tj, (i < j)%nat →
    (classified username fs).*2 !! i = Some ti →
    (classified username fs).*2 !! j = Some tj →
    ∃ a b, firstIndex ti (prTitle <$> fs) = Some a ∧
           firstIndex tj (prTitle <$> fs) = Some b ∧ (a < b)%nat.
Proof.
  intros Hfs. split_and!.
  - apply getDailyEvents_filter.
  - rewrite getDailyEvents_filter. apply sublist_filter.
  - by rewrite formatEvents_classified, Hfs.
  - apply classified_titles_sublist.
  - intros i j ti tj Hij Hi Hj.
    destruct (sublist_lookup_order _ _ (classified_titles_sublist username fs))
      as [_ S2].
    destruct (S2 i j ti tj) as (i' & j' & Hij' & Hi' & Hj'); [done..|].
    by apply (firstTitles_order _ i' j').
Qed.

Lemma order_is_preserved_witness :
  formatEvents jan02 "me" (getDailyEvents "2024-01-02" sampleEvents) =
  Ok "Jan 02, 2024:
• Done | Attended frail-check meeting
• Done | Attended frail-check followup meeting
• Reviewed | Fix bug Y
• In Review | Add feature X
Next:
• Continue with assigned task and R&D
".
Proof.
  refine (proj1 (proj2 (proj2 (order_is_preserved jan02 "2024-01-02" "me" sampleEvents
    [ mkFields "Fix bug Y" "closed" "octocat" false;
      mkFields "" "" "" false;
      mkFields "Add feature X" "opened" "me" false;
      mkFields "Fix bug Y" "closed" "me" true;
      mkFields "Add feature X" "closed" "me" true ] _)))).
  reflexivity.
Defined.

(** ** Deduplication *)

(** The text of the report when a pull request carries the title of a fixed
    line. *)
Lemma boilerplate_title_repeated : ¬ dedupOverWholeReport.
Proof.
  intros H.
  specialize (H jan02 "me"
    [prEvent "2024-01-02T09:30:00Z" "opened" "Attended frail-check meeting" "me" true]
    "Jan 02, 2024:
• Done | Attended frail-check meeting
• Done | Attended frail-check followup meeting
• Done | Attended frail-check meeting
Next:
• Continue with assigned task and R&D
").
  vm_compute in H. specialize (H eq_refl). apply NoDup_cons in H as [H _]. apply H.
  right. left.
Qed.

(** C2, amended: the classified entries of a report have pairwise distinct
    titles, and the entry of a title carries the status of the first event,
    in input order, that has this title; the two fixed lines stand before
    the entries and are not part of them. *)
Theorem classified_titles_are_unique now username events report :
  formatEvents now username events = Ok report →
  ∃ fs, readAll events = Ok fs ∧
    report = reportHead now +:+ renderLines (classified username fs) +:+ reportTail ∧
    NoDup (classified username fs).*2 ∧
    ∀ s t, (s, t) ∈ classified username fs →
      ∃ fs1 f fs2, fs = fs1 ++ f :: fs2 ∧ (t ∉ prTitle <$> fs1) ∧
        prTitle f = t ∧ s = statusOf username f.
Proof.
  rewrite formatEvents_classified. intros (fs & Hfs & [= <-])%bind_Ok_inv.
  exists fs. split_and!; [done..| |].
  - eapply sublist_NoDup; [apply firstTitles_NoDup | apply classified_titles_sublist].
  - intros s t (fs1 & f & fs2 & -> & Hn & -> & -> & _)%classified_elem_of.
    by exists fs1, f, fs2.
Qed.

Lemma classified_titles_are_unique_witness :
  ∃ fs, readAll (getDailyEvents "2024-01-02" sampleEvents) = Ok fs ∧
    NoDup (classified "me" fs).*2.
Proof.
  destruct (classified_titles_are_unique jan02 "me"
    (getDailyEvents "2024-01-02" sampleEvents)
    "Jan 02, 2024:
• Done | Attended frail-check meeting
• Done | Attended frail-check followup meeting
• Reviewed | Fix bug Y
• In Review | Add feature X
Next:
• Continue with assigned task and R&D
") as (fs & H1 & _ & H3 & _).
  - vm_compute. reflexivity.
  - exists fs. split; [exact H1 | exact H3].
Defined.

(** ** Calendar arithmetic *)

(** A check over a finite range of integers, by evaluation. *)
Lemma forallb_seqZ (f : Z → bool) m n :
  forallb f (seqZ m n) = true → ∀ x, m ≤ x < m + n → f x = true.
Proof.
  intros H x Hx. rewrite forallb_forall in H. apply H.
  apply list_elem_of_In, elem_of_seqZ. lia.
Qed.

Lemma div_digits a b q r : 0 < b → 0 ≤ r < b → a = b * q + r → a / b = q.
Proof. intros Hb Hr ->. symmetry. by apply (Z.div_unique_pos _ b q r). Qed.

Lemma mod_digits a b q r : 0 < b → 0 ≤ r < b → a = b * q + r → a mod b = r.
Proof. intros Hb Hr ->. symmetry. by apply (Z.mod_unique_pos _ b q r). Qed.

(** A year before [year], split into 400-, 100-, 4- and 1-year cycles. *)
Lemma year_cycles Y :
  ∃ a b c r, Y = 400 * a + 100 * b + 4 * c + r ∧
    0 ≤ b ≤ 3 ∧ 0 ≤ c ≤ 24 ∧ 0 ≤ r ≤ 3.
Proof.
  exists (Y / 400), (Y mod 400 / 100), (Y mod 400 mod 100 / 4), (Y mod 400 mod 100 mod 4).
  pose proof (Z.div_mod Y 400 ltac:(lia)) as E1.
  pose proof (Z.mod_pos_bound Y 400 ltac:(lia)) as B1.
  set (Y1 := Y mod 400) in *.
  pose proof (Z.div_mod Y1 100 ltac:(lia)) as E2.
  pose proof (Z.mod_pos_bound Y1 100 ltac:(lia)) as B2.
  set (Y2 := Y1 mod 100) in *.
  pose proof (Z.div_mod Y2 4 ltac:(lia)) as E3.
  pose proof (Z.mod_pos_bound Y2 4 ltac:(lia)) as B3.
  lia.
Qed.

Section cycles.
Variables a b c r : Z.
Hypothesis Hb : 0 ≤ b ≤ 3.
Hypothesis Hc : 0 ≤ c ≤ 24.
Hypothesis Hr : 0 ≤ r ≤ 3.

Lemma daysSinceYear1_cycles :
  daysSinceYear1 (400 * a + 100 * b + 4 * c + r + 1) =
  146097 * a + 36524 * b + 1461 * c + 365 * r.
Proof.
  unfold daysSinceYear1.
  replace (400 * a + 100 * b + 4 * c + r + 1 - 1)
    with (400 * a + 100 * b + 4 * c + r) by lia.
  rewrite (div_digits _ 4 (100 * a + 25 * b + c) r) by lia.
  rewrite (div_digits _ 100 (4 * a + b) (4 * c + r)) by lia.
  rewrite (div_digits _ 400 a (100 * b + 4 * c + r)) by lia.
  lia.
Qed.

Lemma isLeap_cycles :
  isLeap (400 * a + 100 * b + 4 * c + r + 1) =
  (r =? 3) && (negb (c =? 24) || (b =? 3)).
Proof.
  unfold isLeap. destruct (Z.eqb_spec r 3) as [->|Hr3].
  - rewrite (mod_digits _ 4 (100 * a + 25 * b + c + 1) 0) by lia.
    destruct (Z.eqb_spec c 24) as [->|Hc24].
    + rewrite (mod_digits _ 100 (4 * a + b + 1) 0) by lia.
      destruct (Z.eqb_spec b 3) as [->|Hb3].
      * by rewrite (mod_digits _ 400 (a + 1) 0) by lia.
      * rewrite (mod_digits _ 400 a (100 * b + 100)) by lia.
        by rewrite (proj2 (Z.eqb_neq (100 * b + 100) 0)) by lia.
    + rewrite (mod_digits _ 100 (4 * a + b) (4 * c + 4)) by lia.
      by rewrite (proj2 (Z.eqb_neq (4 * c + 4) 0)) by lia.
  - rewrite (mod_digits _ 4 (100 * a + 25 * b + c) (r + 1)) by lia.
    by rewrite (proj2 (Z.eqb_neq (r + 1) 0)) by lia.
Qed.

(** The four divisions of [absYearDay] on a day of a year given by its
    cycles; the last day of a 400- or 4-year cycle makes the quotient one
    too large, which [n - n / 4] takes back. *)
Lemma absYearDay_cycles yday :
  0 ≤ yday < yearLength (400 * a + 100 * b + 4 * c + r + 1) →
  absYearDay (146097 * a + 36524 * b + 1461 * c + 365 * r + yday) =
  (400 * a + 100 * b + 4 * c + r + 1, yday).
Proof.
  unfold yearLength. rewrite isLeap_cycles. intros Hy.
  assert (0 ≤ yday ∧ (yday ≤ 364 ∨ yday = 365 ∧ r = 3 ∧ (c ≠ 24 ∨ b = 3))) as [Hy0 Hl].
  { destruct (Z.eqb_spec r 3), (Z.eqb_spec c 24), (Z.eqb_spec b 3);
      simpl in Hy; lia. }
  clear Hy. unfold absYearDay, daysPer400Years, daysPer100Years, daysPer4Years.
  cbv zeta.
  set (d1 := 36524 * b + 1461 * c + 365 * r + yday).
  set (d2 := 1461 * c + 365 * r + yday).
  set (d3 := 365 * r + yday).
  assert ((146097 * a + 36524 * b + 1461 * c + 365 * r + yday) / 146097 = a) as ->.
  { apply (div_digits _ _ _ d1); subst d1; lia. }
  replace (146097 * a + 36524 * b + 1461 * c + 365 * r + yday - 146097 * a)
    with d1 by (subst d1; lia).
  assert (d1 / 36524 - d1 / 36524 / 4 = b) as ->.
  { destruct (decide (d2 < 36524)).
    - rewrite (div_digits d1 36524 b d2) by (subst d1 d2; lia).
      rewrite Z.div_small by lia. lia.
    - rewrite (div_digits d1 36524 4 0) by (subst d1 d2; lia).
      change (4 - 4 / 4) with 3. subst d2. lia. }
  replace (d1 - 36524 * b) with d2 by (subst d1 d2; lia).
  assert (d2 / 1461 = c) as ->.
  { apply (div_digits _ _ _ d3); subst d2 d3; lia. }
  replace (d2 - 1461 * c) with d3 by (subst d2 d3; lia).
  assert (d3 / 365 - d3 / 365 / 4 = r) as ->.
  { destruct (decide (yday < 365)).
    - rewrite (div_digits d3 365 r yday) by (subst d3; lia).
      rewrite Z.div_small by lia. lia.
    - rewrite (div_digits d3 365 4 0) by (subst d3; lia).
      change (4 - 4 / 4) with 3. lia. }
  subst d3. f_equal; lia.
Qed.

End cycles.

(** The cycles give back the year and the day of the year. *)
Lemma absYearDay_daysSinceYear1 year yday :
  0 ≤ yday < yearLength year →
  absYearDay (daysSinceYear1 year + yday) = (year, yday).
Proof.
  destruct (year_cycles (year - 1)) as (a & b & c & r & E & Hb & Hc & Hr).
  replace year with (400 * a + 100 * b + 4 * c + r + 1) by lia.
  intros Hy. rewrite daysSinceYear1_cycles by done. by apply absYearDay_cycles.
Qed.

Lemma monthDay_yearDay (leap : bool) (month day : Z) :
  1 ≤ month ≤ 12 → 1 ≤ day ≤ monthLength leap month →
  monthDay leap (yearDay leap month day) = (month, day) ∧
  0 ≤ yearDay leap month day < (if leap then 366 else 365).
Proof.
  intros Hm Hd.
  pose (check := λ leap month, forallb (λ day,
    let '(m, d) := monthDay leap (yearDay leap month day) in
    (m =? month) && (d =? day) && (0 <=? yearDay leap month day)
    && (yearDay leap month day <? (if leap then 366 else 365)))
    (seqZ 1 (monthLength leap month))).
  assert (∀ leap, forallb (check leap) (seqZ 1 12) = true) as H
    by (intros []; vm_compute; reflexivity).
  pose proof (forallb_seqZ _ _ _ (H leap) month ltac:(lia)) as H1. unfold check in H1.
  pose proof (forallb_seqZ _ _ _ H1 day ltac:(lia)) as H2. cbv beta in H2.
  destruct (monthDay _ _) as [m d].
  rewrite !andb_true_iff in H2. destruct H2 as [[[->%Z.eqb_eq ->%Z.eqb_eq] ?] ?].
  split; [done | lia].
Qed.

Lemma daysIn_monthLength month year : daysIn month year = monthLength (isLeap year) month.
Proof. reflexivity. Qed.

(** [absDate] inverts the day number that [Date] builds. *)
Lemma absDate_date year month day :
  1 ≤ month ≤ 12 → 1 ≤ day ≤ daysIn month year →
  absDate (daysSinceYear1 year + yearDay (isLeap year) month day) = (year, month, day).
Proof.
  intros Hm Hd. rewrite daysIn_monthLength in Hd.
  destruct (monthDay_yearDay (isLeap year) month day Hm Hd) as [E Hy].
  unfold absDate. rewrite absYearDay_daysSinceYear1 by done. by rewrite E.
Qed.

Lemma Date_day year month day hour min sec :
  0 ≤ hour * 3600 + min * 60 + sec < secondsPerDay →
  Date year month day hour min sec / secondsPerDay + unixEpochDay =
  daysSinceYear1 year + yearDay (isLeap year) month day.
Proof.
  intros H. unfold Date, yearDay, secondsPerDay in *.
  destruct (isLeap year && (3 <=? month)); Z.div_mod_to_equations; lia.
Qed.

(** ** Parsing and printing a date *)

Lemma parseUint_Some s min max x :
  parseUint s min max = Some x → digitsValue s 0 = Some x ∧ min ≤ x ≤ max.
Proof.
  unfold parseUint. destruct (digitsValue s 0) as [y|]; simpl; [|done].
  destruct (y <? min) eqn:E1; simpl; [done|].
  destruct (max <? y) eqn:E2; simpl; [done|]. intros [= ->]. split; [done | lia].
Qed.

Lemma isDigit_digitChar c :
  isDigit c = true →
  0 ≤ Z.of_nat (nat_of_ascii c) - 48 ≤ 9 ∧
  digitChar (Z.of_nat (nat_of_ascii c) - 48) = c.
Proof.
  unfold isDigit, digitChar. intros [H1 H2]%andb_true_iff.
  apply Nat.leb_le in H1, H2. split; [lia|].
  replace (48 + Z.to_nat (Z.of_nat (nat_of_ascii c) - 48))%nat with (nat_of_ascii c) by lia.
  apply ascii_nat_embedding.
Qed.

Lemma digitsValue_2 c1 c2 x :
  digitsValue (String c1 (String c2 "")) 0 = Some x →
  ∃ d1 d2, 0 ≤ d1 ≤ 9 ∧ 0 ≤ d2 ≤ 9 ∧ x = d1 * 10 + d2 ∧
    c1 = digitChar d1 ∧ c2 = digitChar d2.
Proof.
  simpl. destruct (isDigit c1) eqn:E1; [|done]. destruct (isDigit c2) eqn:E2; [|done].
  intros [= <-]. apply isDigit_digitChar in E1 as [? E1], E2 as [? E2].
  exists (Z.of_nat (nat_of_ascii c1) - 48), (Z.of_nat (nat_of_ascii c2) - 48).
  repeat split; first [lia | congruence].
Qed.

Lemma digitsValue_4 c1 c2 c3 c4 x :
  digitsValue (String c1 (String c2 (String c3 (String c4 "")))) 0 = Some x →
  ∃ d1 d2 d3 d4, 0 ≤ d1 ≤ 9 ∧ 0 ≤ d2 ≤ 9 ∧ 0 ≤ d3 ≤ 9 ∧ 0 ≤ d4 ≤ 9 ∧
    x = ((d1 * 10 + d2) * 10 + d3) * 10 + d4 ∧
    c1 = digitChar d1 ∧ c2 = digitChar d2 ∧ c3 = digitChar d3 ∧ c4 = digitChar d4.
Proof.
  simpl. destruct (isDigit c1) eqn:E1; [|done]. destruct (isDigit c2) eqn:E2; [|done].
  destruct (isDigit c3) eqn:E3; [|done]. destruct (isDigit c4) eqn:E4; [|done].
  intros [= <-].
  apply isDigit_digitChar in E1 as [? E1], E2 as [? E2], E3 as [? E3], E4 as [? E4].
  exists (Z.of_nat (nat_of_ascii c1) - 48), (Z.of_nat (nat_of_ascii c2) - 48),
    (Z.of_nat (nat_of_ascii c3) - 48), (Z.of_nat (nat_of_ascii c4) - 48).
  repeat split; first [lia | congruence].
Qed.

(** [utoa] on a number below ten, and on a number with a last digit. *)
Lemma utoa_small fuel u acc :
  0 ≤ u < 10 → utoa fuel u acc = String (digitChar u) acc.
Proof.
  intros Hu. destruct fuel; cbn [utoa]; rewrite Z.mod_small by lia; [done|].
  by rewrite (proj2 (Z.ltb_lt u 10)) by lia.
Qed.

Lemma utoa_step fuel q d acc :
  1 ≤ q → 0 ≤ d ≤ 9 →
  utoa (S fuel) (q * 10 + d) acc = utoa fuel q (String (digitChar d) acc).
Proof.
  intros Hq Hd. cbn [utoa].
  rewrite (proj2 (Z.ltb_ge (q * 10 + d) 10)) by lia.
  by rewrite (div_digits _ 10 q d), (mod_digits _ 10 q d) by lia.
Qed.

(** The fuel that [appendInt] gives [utoa] covers the digits. *)
Lemma fuel_enough x n :
  2 ^ Z.of_nat n ≤ x → ∃ f, Z.to_nat (Z.log2 x) = (n + f)%nat.
Proof.
  intros H. assert (0 < x) by (pose proof (Z.pow_pos_nonneg 2 (Z.of_nat n)); lia).
  apply Z.log2_le_pow2 in H; [|done].
  exists (Z.to_nat (Z.log2 x) - n)%nat. lia.
Qed.

Lemma appendInt_nonneg x width :
  0 ≤ x →
  appendInt x width =
  zeros (width - String.length (utoa (Z.to_nat (Z.log2 x)) x "")) +:+
  utoa (Z.to_nat (Z.log2 x)) x "".
Proof.
  intros Hx. unfold appendInt. rewrite Z.abs_eq by done.
  by rewrite (proj2 (Z.ltb_ge x 0)) by done.
Qed.

(** Two and four digits print as they were read. *)
Lemma appendInt_2 d1 d2 :
  0 ≤ d1 ≤ 9 → 0 ≤ d2 ≤ 9 →
  appendInt (d1 * 10 + d2) 2 = String (digitChar d1) (String (digitChar d2) "").
Proof.
  intros H1 H2. rewrite appendInt_nonneg by lia.
  destruct (decide (d1 = 0)) as [->|].
  - replace (0 * 10 + d2) with d2 by lia. by rewrite utoa_small by lia.
  - destruct (fuel_enough (d1 * 10 + d2) 1) as [f ->]; [simpl; lia|].
    cbn [Nat.add]. by rewrite utoa_step, utoa_small by lia.
Qed.

Lemma appendInt_4 d1 d2 d3 d4 :
  0 ≤ d1 ≤ 9 → 0 ≤ d2 ≤ 9 → 0 ≤ d3 ≤ 9 → 0 ≤ d4 ≤ 9 →
  appendInt (((d1 * 10 + d2) * 10 + d3) * 10 + d4) 4 =
  String (digitChar d1) (String (digitChar d2)
    (String (digitChar d3) (String (digitChar d4) ""))).
Proof.
  intros H1 H2 H3 H4. rewrite appendInt_nonneg by lia.
  destruct (decide (d1 = 0)) as [->|]; [destruct (decide (d2 = 0)) as [->|];
    [destruct (decide (d3 = 0)) as [->|]|]|].
  - replace (((0 * 10 + 0) * 10 + 0) * 10 + d4) with d4 by lia.
    by rewrite utoa_small by lia.
  - replace (((0 * 10 + 0) * 10 + d3) * 10 + d4) with (d3 * 10 + d4) by lia.
    destruct (fuel_enough (d3 * 10 + d4) 1) as [f ->]; [simpl; lia|].
    cbn [Nat.add]. by rewrite utoa_step, utoa_small by lia.
  - replace (((0 * 10 + d2) * 10 + d3) * 10 + d4) with ((d2 * 10 + d3) * 10 + d4) by lia.
    destruct (fuel_enough ((d2 * 10 + d3) * 10 + d4) 2) as [f ->]; [simpl; lia|].
    cbn [Nat.add]. by rewrite !utoa_step, utoa_small by lia.
  - destruct (fuel_enough (((d1 * 10 + d2) * 10 + d3) * 10 + d4) 3) as [f ->];
      [simpl; lia|].
    cbn [Nat.add]. by rewrite !utoa_step, utoa_small by lia.
Qed.

Lemma date_mkTime year month day hour min sec off :
  1 ≤ month ≤ 12 → 1 ≤ day ≤ daysIn month year →
  0 ≤ hour ≤ 23 → 0 ≤ min ≤ 59 → 0 ≤ sec ≤ 59 →
  date (mkTime (Date year month day hour min sec - off) off) = (year, month, day).
Proof.
  intros Hm Hd Hh Hmi Hs. unfold date. cbn [unixSec zoneOffset].
  replace (Date year month day hour min sec - off + off)
    with (Date year month day hour min sec) by lia.
  rewrite Date_day by (unfold secondsPerDay; lia).
  by apply absDate_date.
Qed.

Lemma bind_Some_inv {A B} (f : A → option B) (o : option A) b :
  o ≫= f = Some b → ∃ a, o = Some a ∧ f a = Some b.
Proof. destruct o as [a|]; [eauto | done]. Qed.

(** What the pieces of the general parser return. *)
Lemma skip_Some value c rest : skip value c = Some rest → value = String c rest.
Proof.
  destruct value as [|c' value]; [done|]. simpl.
  destruct (bool_decide (c' = c)) eqn:E; [|done].
  apply bool_decide_eq_true in E. by intros [= ->]; subst.
Qed.

Lemma getnum_nonneg s fixed x rest : getnum s fixed = Some (x, rest) → 0 ≤ x ≤ 99.
Proof.
  unfold getnum, digitValue. destruct s as [|c0 [|c1 s]]; [done| |].
  - destruct (isDigit c0) eqn:E0; [|done]. apply isDigit_digitChar in E0 as [? _].
    destruct fixed; [done|]. intros [= <- _]. lia.
  - destruct (isDigit c0) eqn:E0; [|done]. apply isDigit_digitChar in E0 as [? _].
    cbn [negb]. destruct (isDigit c1) eqn:E1.
    + apply isDigit_digitChar in E1 as [? _]. intros [= <- _]. lia.
    + destruct fixed; [done|]. intros [= <- _]. lia.
Qed.

Lemma getnum_fixed s x rest :
  getnum s true = Some (x, rest) →
  ∃ d1 d2, 0 ≤ d1 ≤ 9 ∧ 0 ≤ d2 ≤ 9 ∧ x = d1 * 10 + d2 ∧
    s = String (digitChar d1) (String (digitChar d2) rest).
Proof.
  unfold getnum, digitValue. destruct s as [|c0 [|c1 s]]; [done| |].
  - by destruct (isDigit c0).
  - destruct (isDigit c0) eqn:E0; [|done]. cbn [negb].
    destruct (isDigit c1) eqn:E1; [|done]. intros [= <- <-].
    apply isDigit_digitChar in E0 as [? E0], E1 as [? E1].
    exists (Z.of_nat (nat_of_ascii c0) - 48), (Z.of_nat (nat_of_ascii c1) - 48).
    repeat split; first [lia | congruence].
Qed.

Lemma getLongYear_Some value year rest :
  getLongYear value = Some (year, rest) →
  ∃ d1 d2 d3 d4, 0 ≤ d1 ≤ 9 ∧ 0 ≤ d2 ≤ 9 ∧ 0 ≤ d3 ≤ 9 ∧ 0 ≤ d4 ≤ 9 ∧
    year = ((d1 * 10 + d2) * 10 + d3) * 10 + d4 ∧
    value = String (digitChar d1) (String (digitChar d2)
              (String (digitChar d3) (String (digitChar d4) rest))).
Proof.
  unfold getLongYear. destruct value as [|c0 [|c1 [|c2 [|c3 value]]]]; try done.
  intros (y & Hy & [= <- <-])%bind_Some_inv.
  apply digitsValue_4 in Hy as (d1 & d2 & d3 & d4 & ? & ? & ? & ? & -> & -> & -> & -> & ->).
  exists d1, d2, d3, d4. by repeat split; try lia.
Qed.

(** The fast path: the parsed time carries, in its own zone, the date that
    the string spells in its first ten characters. *)
Lemma parseRFC3339_date s t :
  parseRFC3339 s = Some t →
  ∃ year month day,
    date t = (year, month, day) ∧
    layout_2006_01_02 (year, month, day) = substring 0 10 s ∧
    0 ≤ year ≤ 9999 ∧ 1 ≤ month ≤ 12 ∧ 1 ≤ day ≤ daysIn month year.
Proof.
  unfold parseRFC3339. destruct (String.length s <? 19)%nat eqn:Hlen; [done|].
  apply Nat.ltb_ge in Hlen.
  do 19 (destruct s as [|? s]; [simpl in Hlen; lia|]). clear Hlen.
  cbn [substring].
  intros (year & Hy & H)%bind_Some_inv. apply parseUint_Some in Hy as [Hy ?].
  apply bind_Some_inv in H as (month & Hm & H). apply parseUint_Some in Hm as [Hm ?].
  apply bind_Some_inv in H as (day & Hd & H). apply parseUint_Some in Hd as [Hd ?].
  apply bind_Some_inv in H as (hour & Hh & H). apply parseUint_Some in Hh as [_ ?].
  apply bind_Some_inv in H as (min & Hmi & H). apply parseUint_Some in Hmi as [_ ?].
  apply bind_Some_inv in H as (sec & Hs & H). apply parseUint_Some in Hs as [_ ?].
  unfold charIs in H. cbn [String.get Nat.eqb] in H.
  destruct (negb _) eqn:Hc in H; [done|].
  apply negb_false_iff in Hc. rewrite !andb_true_iff in Hc.
  destruct Hc as [[[[->%bool_decide_eq_true ->%bool_decide_eq_true] _] _] _].
  apply bind_Some_inv in H as (off & _ & [= <-]).
  exists year, month, day. split_and!; try lia.
  - by apply date_mkTime.
  - apply digitsValue_4 in Hy as (d1 & d2 & d3 & d4 & ? & ? & ? & ? & -> & -> & -> & -> & ->).
    apply digitsValue_2 in Hm as (m1 & m2 & ? & ? & -> & -> & ->).
    apply digitsValue_2 in Hd as (e1 & e2 & ? & ? & -> & -> & ->).
    unfold layout_2006_01_02. rewrite appendInt_4, !appendInt_2 by done.
    reflexivity.
Qed.

(** The general parser: whatever the hour, the fraction and the zone look
    like, the year, the month and the day are the first ten characters. *)
Lemma parse_date s t :
  parse s = Some t →
  ∃ year month day,
    date t = (year, month, day) ∧
    layout_2006_01_02 (year, month, day) = substring 0 10 s ∧
    0 ≤ year ≤ 9999 ∧ 1 ≤ month ≤ 12 ∧ 1 ≤ day ≤ daysIn month year.
Proof.
  unfold parse.
  intros ([year v] & Hy & H)%bind_Some_inv.
  apply bind_Some_inv in H as (v1 & ->%skip_Some & H).
  apply bind_Some_inv in H as ([month v2] & Hm & H).
  destruct (_ || _) eqn:Rm in H; [done|].
  apply bind_Some_inv in H as (v3 & ->%skip_Some & H).
  apply bind_Some_inv in H as ([day v4] & Hd & H).
  apply bind_Some_inv in H as (v5 & ->%skip_Some & H).
  apply bind_Some_inv in H as ([hour v6] & Hh%getnum_nonneg & H).
  destruct (_ || _) eqn:Rh in H; [done|].
  apply bind_Some_inv in H as (v7 & _ & H).
  apply bind_Some_inv in H as ([min v8] & Hmi%getnum_nonneg & H).
  destruct (_ || _) eqn:Rmi in H; [done|].
  apply bind_Some_inv in H as (v9 & _ & H).
  apply bind_Some_inv in H as ([sec v10] & Hs%getnum_nonneg & H).
  destruct (_ || _) eqn:Rs in H; [done|].
  apply bind_Some_inv in H as ([off v11] & _ & H).
  destruct (negb _) in H; [done|].
  destruct (_ || _) eqn:Rd in H; [done|]. injection H as <-.
  apply orb_false_iff in Rm as [?%Z.leb_gt ?%Z.ltb_ge].
  apply orb_false_iff in Rh as [_ ?%Z.leb_gt].
  apply orb_false_iff in Rmi as [_ ?%Z.leb_gt].
  apply orb_false_iff in Rs as [_ ?%Z.leb_gt].
  apply orb_false_iff in Rd as [?%Z.ltb_ge ?%Z.ltb_ge].
  apply getLongYear_Some in Hy as (d1 & d2 & d3 & d4 & ? & ? & ? & ? & -> & ->).
  apply getnum_fixed in Hm as (m1 & m2 & ? & ? & -> & ->).
  apply getnum_fixed in Hd as (e1 & e2 & ? & ? & -> & ->).
  exists (((d1 * 10 + d2) * 10 + d3) * 10 + d4), (m1 * 10 + m2), (e1 * 10 + e2).
  split_and!; try lia.
  - apply date_mkTime; lia.
  - unfold layout_2006_01_02. rewrite appendInt_4, !appendInt_2 by done.
    reflexivity.
Qed.

(** A parsed time carries, in its own zone, the date that the string
    spells, and [dateFormat] prints the first ten characters back. *)
Lemma Parse_RFC3339_date s t :
  Parse_RFC3339 s = Some t →
  ∃ year month day,
    date t = (year, month, day) ∧
    layout_2006_01_02 (year, month, day) = substring 0 10 s ∧
    0 ≤ year ≤ 9999 ∧ 1 ≤ month ≤ 12 ∧ 1 ≤ day ≤ daysIn month year.
Proof.
  unfold Parse_RFC3339. destruct (parseRFC3339 s) as [t'|] eqn:E.
  - intros [= <-]. by apply parseRFC3339_date.
  - apply parse_date.
Qed.

Lemma Format_dateFormat_Parse s t :
  Parse_RFC3339 s = Some t → Format_dateFormat t = substring 0 10 s.
Proof.
  intros (year & month & day & Hd & Hl & _)%Parse_RFC3339_date.
  unfold Format_dateFormat. by rewrite Hd.
Qed.

Lemma utcDate_zero_offset t : zoneOffset t = 0 → utcDate t = date t.
Proof. intros H. unfold utcDate, date. rewrite H. by rewrite Z.add_0_r. Qed.

Lemma keeps_Parse date event createdAt startTime :
  event !! "created_at" = Some (VString createdAt) →
  Parse_RFC3339 createdAt = Some startTime →
  keeps date event = bool_decide (Format_dateFormat startTime = date).
Proof. intros H1 H2. unfold keeps. by rewrite H1, H2. Qed.

(** ** The date filter *)

(** An event stamped 23:30 at UTC-5 on 2 January is kept for 2 January
    although its UTC day is 3 January. *)
Lemma filter_uses_the_written_day : ¬ filterByUtcDay.
Proof.
  intros H.
  specialize (H "2024-01-02"
    (prEvent "2024-01-02T23:30:00-05:00" "opened" "Add feature X" "me" false)
    "2024-01-02T23:30:00-05:00" (mkTime 1704256200 (-18000)) eq_refl eq_refl).
  vm_compute in H. destruct H as [H _]. specialize (H eq_refl). discriminate H.
Qed.

(** C4, amended: an event whose [created_at] parses as an RFC 3339
    date-time is kept iff its calendar day in the zone offset that the
    timestamp itself carries, which is the date the timestamp spells in its
    first ten characters, equals the target date; this is the UTC day when
    the offset is zero. *)
Theorem filter_keeps_the_written_day date event createdAt startTime :
  event !! "created_at" = Some (VString createdAt) →
  Parse_RFC3339 createdAt = Some startTime →
  (keeps date event = true ↔ layout_2006_01_02 (GoTime.date startTime) = date) ∧
  layout_2006_01_02 (GoTime.date startTime) = substring 0 10 createdAt ∧
  (zoneOffset startTime = 0 → utcDate startTime = GoTime.date startTime) ∧
  getDailyEvents date [event] = if keeps date event then [event] else [].
Proof.
  intros H1 H2. split_and!.
  - rewrite (keeps_Parse _ _ _ _ H1 H2). apply bool_decide_eq_true.
  - by apply Format_dateFormat_Parse.
  - apply utcDate_zero_offset.
  - rewrite getDailyEvents_cons. by destruct (keeps date event).
Qed.

Lemma filter_keeps_the_written_day_witness :
  let e := prEvent "2024-01-02T23:30:00-05:00" "opened" "Add feature X" "me" false in
  keeps "2024-01-02" e = true ∧ keeps "2024-01-03" e = false ∧
  getDailyEvents "2024-01-02" [e] = [e].
Proof.
  intros e.
  destruct (filter_keeps_the_written_day "2024-01-02" e
    "2024-01-02T23:30:00-05:00" (mkTime 1704256200 (-18000)) eq_refl eq_refl)
    as (H & _ & _ & H').
  split_and!; [apply H; reflexivity | reflexivity | exact H'].
Defined.

(** The strings that only the general parser takes are filtered like the
    others: an hour of one digit, a comma before the fraction of the second
    and an offset of 24 hours are kept for the day they spell, and for no
    other. *)
Example lenient_timestamps_are_kept :
  Forall (λ s, let e := prEvent s "opened" "Add feature X" "me" false in
               keeps "2024-01-02" e = true ∧ keeps "2024-01-01" e = false)
    ["2024-01-02T9:30:00Z"; "2024-01-02T09:30:00,5Z"; "2024-01-02T09:30:00+24:00"].
Proof. repeat constructor. Qed.

(** Text after the zone, a day that the month does not have and an hour of
    24 do not parse, so such events are never kept. *)
Example malformed_timestamps_are_dropped :
  Forall (λ s, createdAtUnusable (prEvent s "opened" "Add feature X" "me" false) = true)
    ["2024-01-02T09:30:00Zx"; "2024-02-30T09:30:00Z"; "2024-01-02T24:30:00Z";
     "2024-01-02 09:30:00Z"; "2024-01-02T09:30:00+25:00"].
Proof. repeat constructor. Qed.

(** ** The shape of the header *)

Lemma div_bounds x k : 0 < k → k * (x / k) ≤ x < k * (x / k) + k.
Proof.
  intros Hk. pose proof (Z.div_mod x k ltac:(lia)).
  pose proof (Z.mod_pos_bound x k Hk). lia.
Qed.

(** A quotient between 0 and 4, capped at 3 by [n - n / 4]. *)
Lemma capped_quotient n :
  0 ≤ n ≤ 4 → 0 ≤ n - n / 4 ≤ 3 ∧ (n - n / 4 = n ∨ n = 4 ∧ n - n / 4 = 3).
Proof.
  intros Hn. destruct (decide (n = 4)) as [->|].
  - change (4 - 4 / 4) with 3. lia.
  - rewrite Z.div_small by lia. lia.
Qed.

(** Every day number is a day of some year. *)
Lemma absYearDay_range d :
  0 ≤ (absYearDay d).2 < yearLength (absYearDay d).1.
Proof.
  unfold absYearDay, daysPer400Years, daysPer100Years, daysPer4Years.
  cbv zeta. cbn [fst snd].
  pose proof (div_bounds d 146097 ltac:(lia)) as H1.
  set (n1 := d / 146097) in *. clearbody n1.
  set (e := d - 146097 * n1). assert (0 ≤ e < 146097) as He by (subst e; lia).
  clearbody e. clear H1.
  pose proof (div_bounds e 36524 ltac:(lia)) as H2.
  set (n2 := e / 36524) in *. clearbody n2.
  destruct (capped_quotient n2 ltac:(lia)) as [Hc2 Hc2'].
  set (m2 := n2 - n2 / 4) in *. clearbody m2.
  set (d2 := e - 36524 * m2).
  assert (0 ≤ d2 ≤ 36524 ∧ (d2 = 36524 → m2 = 3)) as [Hd2 Hd2'] by (subst d2; lia).
  clearbody d2. clear H2 Hc2' He.
  pose proof (div_bounds d2 1461 ltac:(lia)) as H3.
  set (n3 := d2 / 1461) in *. clearbody n3.
  set (d3 := d2 - 1461 * n3).
  assert (0 ≤ n3 ≤ 24 ∧ 0 ≤ d3 < 1461 ∧ (n3 = 24 → d3 = 1460 → m2 = 3))
    as (Hn3 & Hd3 & Hd3') by (subst d3; lia).
  clearbody d3. clear H3 Hd2 Hd2'.
  pose proof (div_bounds d3 365 ltac:(lia)) as H4.
  set (n4 := d3 / 365) in *. clearbody n4.
  destruct (capped_quotient n4 ltac:(lia)) as [Hc4 Hc4'].
  set (m4 := n4 - n4 / 4) in *. clearbody m4.
  unfold yearLength. rewrite isLeap_cycles by done.
  destruct (Z.eqb_spec m4 3), (Z.eqb_spec n3 24), (Z.eqb_spec m2 3); simpl; lia.
Qed.

Lemma monthDay_range (leap : bool) (yday : Z) :
  0 ≤ yday < (if leap then 366 else 365) →
  1 ≤ (monthDay leap yday).1 ≤ 12 ∧ 1 ≤ (monthDay leap yday).2 ≤ 31.
Proof.
  intros Hy.
  pose (check := λ leap yday,
    let '(m, d) := monthDay leap yday in
    (1 <=? m) && (m <=? 12) && (1 <=? d) && (d <=? 31)).
  assert (∀ leap, forallb (check leap) (seqZ 0 (if leap then 366 else 365)) = true)
    as H by (intros []; vm_compute; reflexivity).
  pose proof (forallb_seqZ _ _ _ (H leap) yday ltac:(lia)) as H1. unfold check in H1.
  destruct (monthDay leap yday) as [m d]. cbn [fst snd].
  rewrite !andb_true_iff in H1. lia.
Qed.

Lemma absDate_range d :
  1 ≤ (absDate d).1.2 ≤ 12 ∧ 1 ≤ (absDate d).2 ≤ 31.
Proof.
  unfold absDate. pose proof (absYearDay_range d) as H.
  destruct (absYearDay d) as [year yday]. cbn [fst snd] in H.
  pose proof (monthDay_range (isLeap year) yday H) as H'.
  by destruct (monthDay _ _) as [m dd].
Qed.

Lemma shortMonthName_length m : String.length (shortMonthName m) = 3%nat.
Proof. unfold shortMonthName. repeat (destruct (_ =? _); [done|]). done. Qed.

Lemma appendInt_2_length x : 0 ≤ x ≤ 99 → String.length (appendInt x 2) = 2%nat.
Proof.
  intros Hx. pose proof (div_bounds x 10 ltac:(lia)).
  replace x with (x / 10 * 10 + (x - 10 * (x / 10))) by lia.
  by rewrite appendInt_2 by lia.
Qed.

Lemma appendInt_4_length x : 0 ≤ x ≤ 9999 → String.length (appendInt x 4) = 4%nat.
Proof.
  intros Hx.
  pose proof (div_bounds x 10 ltac:(lia)). set (q1 := x / 10) in *.
  pose proof (div_bounds q1 10 ltac:(lia)). set (q2 := q1 / 10) in *.
  pose proof (div_bounds q2 10 ltac:(lia)). set (q3 := q2 / 10) in *.
  replace x with (((q3 * 10 + (q2 - 10 * q3)) * 10 + (q1 - 10 * q2)) * 10
                  + (x - 10 * q1)) by lia.
  by rewrite appendInt_4 by lia.
Qed.

(** With a four-digit year the header has the twelve characters of
    "Mon DD, YYYY". *)
Lemma Format_header_length t :
  0 ≤ (date t).1.1 ≤ 9999 → String.length (Format_header t) = 12%nat.
Proof.
  intros Hy. unfold Format_header, layout_Jan_02_2006, date in *.
  pose proof (absDate_range ((unixSec t + zoneOffset t) / secondsPerDay + unixEpochDay))
    as [Hm Hd].
  destruct (absDate _) as [[year month] day]. cbn [fst snd] in *.
  rewrite !append_length, shortMonthName_length.
  rewrite appendInt_2_length, appendInt_4_length by lia. reflexivity.
Qed.

(** ** When the loop panics *)

Lemma readFields_Panic event :
  readFields event = Panic ↔ wellShaped event = false.
Proof.
  unfold readFields, wellShaped, extract, assertString, assertMap, isMap, entry.
  destruct (event !! "type") as [[| | |eventType| |]|]; simpl; try done.
  destruct (bool_decide (eventType = "PullRequestEvent")).
  - destruct (event !! "payload") as [[| | | | |payload]|]; simpl; try done.
    destruct (payload !! "pull_request") as [[| | | | |pr]|]; simpl; try done.
    destruct (pr !! "user") as [[| | | | |user]|]; simpl; done.
  - destruct (bool_decide (eventType = "PullRequestReviewEvent")); [|done].
    destruct (event !! "payload") as [[| | | | |payload]|]; simpl; try done.
    destruct (payload !! "pull_request") as [[| | | | |pr]|]; simpl; try done.
    destruct (payload !! "review") as [[| | | | |review]|]; simpl; try done.
    destruct (review !! "user") as [[| | | | |user]|]; simpl; done.
Qed.

Lemma readAll_Ok events :
  Forall (λ e, wellShaped e = true) events → ∃ fs, readAll events = Ok fs.
Proof.
  induction 1 as [|e events He _ [fs IH]]; [by exists []|].
  cbn [readAll]. rewrite IH.
  destruct (readFields e) as [o|] eqn:E.
  - simpl_result. eauto.
  - apply readFields_Panic in E. congruence.
Qed.

(** The report is produced exactly when every event is well shaped. *)
Lemma formatEvents_Ok now username events :
  (∃ report, formatEvents now username events = Ok report) ↔
  Forall (λ e, wellShaped e = true) events.
Proof.
  rewrite formatEvents_classified. split.
  - intros [report (fs & Hfs & _)%bind_Ok_inv]. revert fs Hfs.
    induction events as [|e events IH]; intros fs Hfs; [constructor|].
    cbn [readAll] in Hfs.
    apply bind_Ok_inv in Hfs as (o & Ho & (fs' & Hfs' & _)%bind_Ok_inv).
    constructor; [|by eapply IH].
    destruct (wellShaped e) eqn:E; [done|].
    apply readFields_Panic in E. congruence.
  - intros [fs ->]%readAll_Ok. simpl_result. eauto.
Qed.

(** ** The empty list *)

(** C7: for the empty list the report is the date header with its colon,
    the two fixed "Done" lines and the "Next:" block, each line ended by a
    newline, and nothing else.  The header is the short name of a month from
    1 to 12, a two-digit day from 1 to 31, a comma and the year on four
    digits: twelve characters when the year has four digits. *)
Theorem empty_list_report now username :
  formatEvents now username [] =
  Ok (Format_header now +:+ ":
• Done | Attended frail-check meeting
• Done | Attended frail-check followup meeting
Next:
• Continue with assigned task and R&D
") ∧
  Format_header now =
    shortMonthName (date now).1.2 +:+ " " +:+ appendInt (date now).2 2
      +:+ ", " +:+ appendInt (date now).1.1 4 ∧
  1 ≤ (date now).1.2 ≤ 12 ∧ 1 ≤ (date now).2 ≤ 31 ∧
  (0 ≤ (date now).1.1 ≤ 9999 → String.length (Format_header now) = 12%nat).
Proof.
  split_and!.
  - rewrite formatEvents_nil. unfold reportHead. f_equal.
    by rewrite !append_assoc.
  - unfold Format_header, layout_Jan_02_2006. by destruct (date now) as [[y m] d].
  - apply absDate_range.
  - apply absDate_range.
  - apply absDate_range.
  - apply absDate_range.
  - apply Format_header_length.
Qed.

Lemma empty_list_report_witness :
  formatEvents jan02 "me" [] =
  Ok "Jan 02, 2024:
• Done | Attended frail-check meeting
• Done | Attended frail-check followup meeting
Next:
• Continue with assigned task and R&D
" ∧ String.length (Format_header jan02) = 12%nat.
Proof.
  destruct (empty_list_report jan02 "me") as (H1 & _ & _ & _ & H5).
  split; [exact H1 | apply H5; vm_compute; split; discriminate].
Defined.

(** ** The status in closed form *)

Lemma statusOf_closed_form username f :
  statusOf username f =
  if bool_decide (author f = username) then
    if merged f then "Done"
    else if bool_decide (action f = "opened") then "In Review" else ""
  else
    if bool_decide (action f = "closed") then
      if merged f then "Reviewed and merged" else "Reviewed"
    else "".
Proof.
  unfold statusOf. destruct (decide (author f = username)) as [E|E].
  - rewrite (bool_decide_eq_true_2 _ E).
    rewrite (bool_decide_eq_false_2 (author f ≠ username)) by tauto.
    destruct (merged f), (bool_decide (action f = "opened")),
      (bool_decide (action f = "closed")); reflexivity.
  - rewrite (bool_decide_eq_false_2 _ E).
    rewrite (bool_decide_eq_true_2 (author f ≠ username)) by done.
    destruct (merged f), (bool_decide (action f = "closed")); reflexivity.
Qed.

(** X2: the switch decides by the author first: for the user, "Done" when
    merged and "In Review" when opened and not merged; for anyone else, on a
    closed pull request, "Reviewed and merged" or "Reviewed"; nothing
    otherwise.  The cases "opened and merged" and "closed and merged" of the
    user give nothing that "merged" alone does not give. *)
Theorem statusOf_cases username f :
  statusOf username f =
  if bool_decide (author f = username) then
    if merged f then "Done"
    else if bool_decide (action f = "opened") then "In Review" else ""
  else
    if bool_decide (action f = "closed") then
      if merged f then "Reviewed and merged" else "Reviewed"
    else "".
Proof. apply statusOf_closed_form. Qed.

Lemma statusOf_statuses username f :
  statusOf username f = "" ∨ statusOf username f ∈ statuses.
Proof.
  rewrite statusOf_closed_form. unfold statuses.
  destruct (bool_decide (author f = username)), (merged f),
    (bool_decide (action f = "opened")), (bool_decide (action f = "closed"));
    first [by left | right; rewrite !elem_of_cons; tauto].
Qed.

(** X3: every classified entry carries one of the four statuses and a
    non-empty title, and the report is made of the head, one line
    "• status | title" per entry, and the tail. *)
Theorem classified_statuses now username events report :
  formatEvents now username events = Ok report →
  ∃ entries,
    report = reportHead now +:+ renderLines entries +:+ reportTail ∧
    Forall (λ l, l.1 ∈ statuses ∧ l.2 ≠ "") entries.
Proof.
  rewrite formatEvents_classified. intros (fs & Hfs & [= <-])%bind_Ok_inv.
  exists (classified username fs). split; [done|].
  apply Forall_forall. intros [s t] Hst. unfold classified in Hst.
  apply list_elem_of_omap in Hst as (f & _ & (-> & -> & Hs & Ht)%lineOf_Some).
  split; [|done]. simpl. by destruct (statusOf_statuses username f).
Qed.

Lemma classified_statuses_witness :
  ∃ entries,
    "Jan 02, 2024:
• Done | Attended frail-check meeting
• Done | Attended frail-check followup meeting
• Reviewed | Fix bug Y
• In Review | Add feature X
Next:
• Continue with assigned task and R&D
" = reportHead jan02 +:+ renderLines entries +:+ reportTail ∧
    Forall (λ l, l.1 ∈ statuses ∧ l.2 ≠ "") entries.
Proof.
  apply (classified_statuses jan02 "me" (getDailyEvents "2024-01-02" sampleEvents)).
  vm_compute. reflexivity.
Defined.

(** ** Review events *)

(** X4: for a review event the author compared with the user is the login
    of the reviewer; the user of the pull request under review is never
    read, so replacing it changes nothing. *)
Theorem review_reads_the_reviewer (event : Event) (payload pr : gmap string value) v :
  event !! "type" = Some (VString "PullRequestReviewEvent") →
  event !! "payload" = Some (VMap payload) →
  payload !! "pull_request" = Some (VMap pr) →
  readFields
    (<["payload" := VMap (<["pull_request" := VMap (<["user" := v]> pr)]> payload)]> event)
  = readFields event ∧
  ∀ f, readFields event = Ok (Some f) →
    author f = (assertString (entry (entry (payload !! "review") "user") "login")).1 ∧
    prTitle f = (assertString (pr !! "title")).1.
Proof.
  intros Ht Hp Hpr. unfold readFields, extract.
  rewrite lookup_insert_ne, Ht by done. cbn [assertString negb].
  rewrite (bool_decide_eq_false_2 ("PullRequestReviewEvent" = "PullRequestEvent")) by done.
  rewrite (bool_decide_eq_true_2 ("PullRequestReviewEvent" = "PullRequestReviewEvent")) by done.
  rewrite lookup_insert_eq, Hp. cbn [assertMap]. simpl_result.
  rewrite !(lookup_insert_ne _ "pull_request") by done.
  rewrite lookup_insert_eq, Hpr. cbn [assertMap]. simpl_result.
  rewrite !(lookup_insert_ne _ "user") by done.
  split; [done|].
  unfold entry. destruct (payload !! "review") as [[| | | | |review]|]; try done.
  cbn [assertMap]. simpl_result.
  destruct (review !! "user") as [[| | | | |user]|]; try done.
  cbn [assertMap]. simpl_result. by intros f [= <-].
Qed.

Lemma review_reads_the_reviewer_witness :
  let payload : gmap string value :=
    <["action" := VString "closed"]>
      (<["review" := VMap {[ "user" := userObject "me" ]}]>
         {[ "pull_request" := pullRequest "Fix bug Y" "someone" true ]}) in
  let pr : gmap string value :=
    <["title" := VString "Fix bug Y"]>
      (<["merged" := VBool true]> {[ "user" := userObject "someone" ]}) in
  let event := reviewEvent "2024-01-02T09:30:00Z" "closed" "Fix bug Y" "me" true in
  readFields
    (<["payload" := VMap (<["pull_request" := VMap (<["user" := VNil]> pr)]> payload)]> event)
  = readFields event ∧
  readFields event = Ok (Some (mkFields "Fix bug Y" "closed" "me" true)).
Proof.
  intros payload pr event. split; [|reflexivity].
  refine (proj1 (review_reads_the_reviewer event payload pr VNil _ _ _)); reflexivity.
Defined.

(** ** Longer lists *)

Lemma firstMentions_app fs1 fs2 :
  firstMentions (fs1 ++ fs2) =
  firstMentions fs1 ++
  filter (λ g, prTitle g ∉ prTitle <$> fs1) (firstMentions fs2).
Proof.
  induction fs1 as [|f fs1 IH]; cbn [app firstMentions].
  - symmetry. rewrite <- (filter_unseen_empty (firstMentions fs2)) at 2.
    apply list_filter_iff. intros g. rewrite seen_empty. split; [done|].
    intros _. apply not_elem_of_nil.
  - rewrite IH, filter_app, list_filter_filter. f_equal. f_equal.
    apply list_filter_iff. intros g. rewrite fmap_cons, not_elem_of_cons. tauto.
Qed.

Lemma classified_app username fs1 fs2 :
  classified username (fs1 ++ fs2) =
  classified username fs1 ++
  omap (lineOf username)
    (filter (λ g, prTitle g ∉ prTitle <$> fs1) (firstMentions fs2)).
Proof. unfold classified. by rewrite firstMentions_app, omap_app. Qed.

Lemma formatEvents_app now username l1 l2 fs1 fs2 :
  readAll l1 = Ok fs1 → readAll l2 = Ok fs2 →
  formatEvents now username l1 =
    Ok (reportHead now +:+ renderLines (classified username fs1) +:+ reportTail) ∧
  formatEvents now username (l1 ++ l2) =
    Ok (reportHead now +:+
        (renderLines (classified username fs1) +:+
         renderLines (omap (lineOf username)
           (filter (λ g, prTitle g ∉ prTitle <$> fs1) (firstMentions fs2)))) +:+
        reportTail).
Proof.
  intros H1 H2. rewrite !formatEvents_classified, readAll_app, H1, H2.
  simpl_result. by rewrite classified_app, renderLines_app.
Qed.

(** X5: events added at the end of the list only add lines at the end:
    the entries of the list so far stay, in place and unchanged, and the
    added events contribute the entries of their titles that are new. *)
Theorem later_events_only_append now username l1 l2 fs1 fs2 :
  readAll l1 = Ok fs1 → readAll l2 = Ok fs2 →
  formatEvents now username l1 =
    Ok (reportHead now +:+ renderLines (classified username fs1) +:+ reportTail) ∧
  formatEvents now username (l1 ++ l2) =
    Ok (reportHead now +:+
        (renderLines (classified username fs1) +:+
         renderLines (omap (lineOf username)
           (filter (λ g, prTitle g ∉ prTitle <$> fs1) (firstMentions fs2)))) +:+
        reportTail).
Proof. apply formatEvents_app. Qed.

Lemma later_events_only_append_witness :
  formatEvents jan02 "me"
    ([prEvent "2024-01-02T08:00:00Z" "opened" "Add feature X" "me" false] ++
     [prEvent "2024-01-02T09:00:00Z" "closed" "Add feature X" "me" true;
      prEvent "2024-01-02T09:10:00Z" "closed" "Fix bug Y" "octocat" true]) =
  Ok (reportHead jan02 +:+ ("• In Review | Add feature X
" +:+ "• Reviewed and merged | Fix bug Y
") +:+ reportTail).
Proof.
  refine (proj2 (later_events_only_append jan02 "me"
    [prEvent "2024-01-02T08:00:00Z" "opened" "Add feature X" "me" false]
    [prEvent "2024-01-02T09:00:00Z" "closed" "Add feature X" "me" true;
     prEvent "2024-01-02T09:10:00Z" "closed" "Fix bug Y" "octocat" true]
    [mkFields "Add feature X" "opened" "me" false]
    [mkFields "Add feature X" "closed" "me" true;
     mkFields "Fix bug Y" "closed" "octocat" true] _ _)); reflexivity.
Defined.

(** X6: events whose titles have all occurred before change nothing, and
    neither does a list read a second time. *)
Theorem repeated_titles_add_nothing now username l1 l2 fs1 fs2 :
  readAll l1 = Ok fs1 → readAll l2 = Ok fs2 →
  (∀ f, f ∈ fs2 → prTitle f ∈ prTitle <$> fs1) →
  formatEvents now username (l1 ++ l2) = formatEvents now username l1 ∧
  formatEvents now username (l1 ++ l1) = formatEvents now username l1.
Proof.
  intros H1 H2 Hin.
  assert (∀ fs, (∀ f, f ∈ fs → prTitle f ∈ prTitle <$> fs1) →
    filter (λ g, prTitle g ∉ prTitle <$> fs1) (firstMentions fs) = []) as Hnil.
  { intros fs Hfs. apply elem_of_nil_inv. intros g [Hg Hg']%list_elem_of_filter.
    apply Hg, Hfs. eapply elem_of_sublist; [done | apply firstMentions_sublist]. }
  destruct (formatEvents_app now username l1 l2 fs1 fs2 H1 H2) as [-> ->].
  destruct (formatEvents_app now username l1 l1 fs1 fs1 H1 H1) as [_ ->].
  rewrite !Hnil; [|intros f Hf; by apply list_elem_of_fmap_2|done].
  cbn [omap list_omap renderLines fold_right]. by rewrite append_nil_r.
Qed.

Lemma repeated_titles_add_nothing_witness :
  formatEvents jan02 "me"
    ([prEvent "2024-01-02T08:00:00Z" "opened" "Add feature X" "me" false] ++
     [prEvent "2024-01-02T09:00:00Z" "closed" "Add feature X" "me" true]) =
  formatEvents jan02 "me"
    [prEvent "2024-01-02T08:00:00Z" "opened" "Add feature X" "me" false].
Proof.
  refine (proj1 (repeated_titles_add_nothing jan02 "me"
    [prEvent "2024-01-02T08:00:00Z" "opened" "Add feature X" "me" false]
    [prEvent "2024-01-02T09:00:00Z" "closed" "Add feature X" "me" true]
    [mkFields "Add feature X" "opened" "me" false]
    [mkFields "Add feature X" "closed" "me" true] _ _ _)); [reflexivity..|].
  intros f ->%list_elem_of_singleton. vm_compute. left.
Defined.

(** ** The daily filter, composed *)

Lemma keeps_date_unique date date' e :
  keeps date e = true → keeps date' e = true → date = date'.
Proof.
  unfold keeps. destruct (e !! "created_at") as [[| | |s| |]|]; try done.
  destruct (Parse_RFC3339 s) as [t|]; [|done].
  intros <-%bool_decide_eq_true <-%bool_decide_eq_true. done.
Qed.

(** X7: filtering twice for a date is filtering once, and what was kept
    for one date holds nothing for another; the filter works event by
    event, so it distributes over concatenation. *)
Theorem getDailyEvents_composed date date' events events' :
  getDailyEvents date (getDailyEvents date events) = getDailyEvents date events ∧
  (date' ≠ date → getDailyEvents date' (getDailyEvents date events) = []) ∧
  getDailyEvents date (events ++ events') =
    getDailyEvents date events ++ getDailyEvents date events'.
Proof.
  split_and!.
  - rewrite !getDailyEvents_filter. by apply list_filter_filter_l.
  - intros Hne. rewrite !getDailyEvents_filter. apply elem_of_nil_inv.
    intros e [H1 [H2 _]%list_elem_of_filter]%list_elem_of_filter.
    destruct Hne. by apply (keeps_date_unique _ _ e).
  - apply getDailyEvents_app.
Qed.

Lemma getDailyEvents_composed_witness :
  getDailyEvents "2024-01-03" (getDailyEvents "2024-01-02" sampleEvents) = [].
Proof.
  refine (proj1 (proj2 (getDailyEvents_composed "2024-01-02" "2024-01-03"
    sampleEvents [])) _).
  discriminate.
Defined.

(** ** The run on today's events *)

Lemma dailyReport_Ok today now username events :
  (∃ report, dailyReport today now username events = Ok report) ↔
  Forall (λ e, keeps (Format_dateFormat today) e = true → wellShaped e = true) events.
Proof.
  unfold dailyReport. rewrite formatEvents_Ok, getDailyEvents_filter.
  rewrite !Forall_forall. split.
  - intros H e He Hk. apply H, list_elem_of_filter. done.
  - intros H e [Hk He]%list_elem_of_filter. by apply H.
Qed.

(** X1: [formatEvents] gives a report exactly when every event of one of
    the two pull-request types has a map for its payload, for the pull
    request in it and for the user of the pull request (of the review, for a
    review event); on any other list it panics.  A missing title, action,
    login or merged flag is no such failure. *)
Theorem report_iff_well_shaped now username events :
  (∃ report, formatEvents now username events = Ok report) ↔
  Forall (λ e, wellShaped e = true) events.
Proof. apply formatEvents_Ok. Qed.

(** X8: the run over the events of a response gives a report exactly when
    every event kept for today is well shaped; an ill-shaped event of another
    day, or with no usable date, does no harm. *)
Theorem daily_report_iff_kept_well_shaped today now username events :
  (∃ report, dailyReport today now username events = Ok report) ↔
  Forall (λ e, keeps (Format_dateFormat today) e = true → wellShaped e = true) events.
Proof. apply dailyReport_Ok. Qed.

(** A pull request without a login or a title is read with empty strings;
    one without a user panics. *)
Example missing_leaf_and_missing_map :
  readFields (prEventNoLogin "2024-01-02T09:30:00Z" "opened" "Bump deps" true) =
    Ok (Some (mkFields "Bump deps" "opened" "" true)) ∧
  readFields {[ "type" := VString "PullRequestEvent";
                "payload" := VMap {[ "pull_request" := VMap ∅ ]} ]} = Panic.
Proof. split; reflexivity. Qed.

(** ** The whole run *)

Lemma main_eq w :
  main w =
  if negb (dotenvLoads w) then mkRun "" (Some "Error loading .env file") None Fatal
  else
    match httpGet w (eventsURL (getenv w "GITHUB_USERNAME"))
            ("token " +:+ getenv w "GITHUB_TOKEN") with
    | Error err => mkRun "" (Some err) None Fatal
    | Value body =>
        match unmarshal w body with
        | Error err => mkRun "" (Some err) None Fatal
        | Value events =>
            match dailyReport (clockMain w) (clockFormat w)
                    (getenv w "GITHUB_USERNAME") events with
            | Panic => mkRun "" None None Panicked
            | Ok report =>
                match writeFile w (getenv w "REPORT_FILE") report 420 with
                | Some err => mkRun (report +:+ "
") (Some err) None Fatal
                | None => mkRun (report +:+ "
") None (Some (getenv w "REPORT_FILE", report, 420)) Exit0
                end
            end
        end
    end.
Proof.
  unfold main, getDailyEventsOf, dailyReport.
  destruct (dotenvLoads w); [|done]. cbn [negb].
  destruct (httpGet _ _ _) as [body|err]; [|done].
  by destruct (unmarshal w body) as [events|err].
Qed.

(** X9: a file is written only by a run that ends normally, at the path
    of REPORT_FILE and with mode 0644; its content is the report of today's
    events of the one response fetched for GITHUB_USERNAME with
    GITHUB_TOKEN, and standard output holds that same text and a newline. *)
Theorem main_writes_what_it_prints w path content mode :
  written (main w) = Some (path, content, mode) →
  path = getenv w "REPORT_FILE" ∧ mode = 420 ∧
  stdout (main w) = content +:+ "
" ∧
  status (main w) = Exit0 ∧ logged (main w) = None ∧
  ∃ body events,
    httpGet w ("https://api.github.com/users/" +:+ getenv w "GITHUB_USERNAME" +:+ "/events")
      ("token " +:+ getenv w "GITHUB_TOKEN") = Value body ∧
    unmarshal w body = Value events ∧
    dailyReport (clockMain w) (clockFormat w) (getenv w "GITHUB_USERNAME") events
      = Ok content.
Proof.
  rewrite main_eq. destruct (dotenvLoads w); [|done]. cbn [negb].
  unfold eventsURL.
  destruct (httpGet _ _ _) as [body|err] eqn:Eh; [|done].
  destruct (unmarshal w body) as [events|err] eqn:Eu; [|done].
  destruct (dailyReport _ _ _ events) as [report|] eqn:Ed; [|done].
  destruct (writeFile _ _ _ _) as [err|]; [done|].
  cbn [written stdout status logged]. intros [= <- <- <-].
  split_and!; try done. by exists body, events.
Qed.

Lemma main_writes_what_it_prints_witness :
  stdout (main sampleWorld) = "Jan 02, 2024:
• Done | Attended frail-check meeting
• Done | Attended frail-check followup meeting
• Reviewed | Fix bug Y
• In Review | Add feature X
Next:
• Continue with assigned task and R&D

" ∧ status (main sampleWorld) = Exit0.
Proof.
  destruct (main_writes_what_it_prints sampleWorld "report.txt" "Jan 02, 2024:
• Done | Attended frail-check meeting
• Done | Attended frail-check followup meeting
• Reviewed | Fix bug Y
• In Review | Add feature X
Next:
• Continue with assigned task and R&D
" 420) as (_ & _ & H3 & H4 & _).
  - vm_compute. reflexivity.
  - split; [exact H3 | exact H4].
Defined.

Lemma Exists_kept_bad {A} (P Q : A → bool) (l : list A) :
  Exists (λ e, P e = true ∧ Q e = false) l ↔
  ¬ Forall (λ e, P e = true → Q e = true) l.
Proof.
  induction l as [|a l IH].
  - rewrite Exists_nil. split; [done|]. intros H. apply H. constructor.
  - rewrite Exists_cons, Forall_cons, IH.
    destruct (P a), (Q a); intuition congruence.
Qed.

(** X10: a run panics exactly when the environment file loaded, the
    response arrived and decoded, and an event kept for today is not well
    shaped; such a run prints nothing, logs nothing and writes nothing. *)
Theorem main_panics w :
  (status (main w) = Panicked ↔
   dotenvLoads w = true ∧
   ∃ body events,
     httpGet w (eventsURL (getenv w "GITHUB_USERNAME"))
       ("token " +:+ getenv w "GITHUB_TOKEN") = Value body ∧
     unmarshal w body = Value events ∧
     Exists (λ e, keeps (Format_dateFormat (clockMain w)) e = true ∧
                  wellShaped e = false) events) ∧
  (status (main w) = Panicked →
   stdout (main w) = "" ∧ logged (main w) = None ∧ written (main w) = None).
Proof.
  rewrite main_eq. destruct (dotenvLoads w); cbn [negb];
    [|split; [split; [done | by intros [? _]] | done]].
  destruct (httpGet _ _ _) as [body|err] eqn:Eh;
    [|split; [split; [done | by intros (_ & ? & ? & ? & _)] | done]].
  destruct (unmarshal w body) as [events|err] eqn:Eu;
    [|split; [split; [done | intros (_ & ? & ? & [= <-] & ? & _); congruence] | done]].
  pose proof (dailyReport_Ok (clockMain w) (clockFormat w)
                (getenv w "GITHUB_USERNAME") events) as HOk.
  assert (Exists (λ e, keeps (Format_dateFormat (clockMain w)) e = true ∧
                       wellShaped e = false) events ↔
          ¬ Forall (λ e, keeps (Format_dateFormat (clockMain w)) e = true →
                         wellShaped e = true) events) as HEx.
  { apply Exists_kept_bad. }
  destruct (dailyReport _ _ _ events) as [report|] eqn:Ed.
  - assert (¬ Exists (λ e, keeps (Format_dateFormat (clockMain w)) e = true ∧
                           wellShaped e = false) events) as Hno.
    { rewrite HEx. intros H. apply H, HOk. eauto. }
    destruct (writeFile _ _ _ _); (split; [split; [done|] | done]);
      intros (_ & ? & ? & [= <-] & Eu' & HE); rewrite Eu in Eu';
      injection Eu' as <-; done.
  - split; [|done]. split; [|done]. intros _. split; [done|].
    exists body, events. split_and!; [done..|].
    apply HEx. intros H. apply HOk in H as [report H]. congruence.
Qed.

(** X11: a run that ends by [log.Fatal] has logged a line and written no
    file; if anything was printed, it is the whole report and a newline, and
    the line logged is the error of writing that report to REPORT_FILE. *)
Theorem main_fatal w :
  status (main w) = Fatal →
  is_Some (logged (main w)) ∧ written (main w) = None ∧
  (stdout (main w) = "" ∨
   ∃ report, stdout (main w) = report +:+ "
" ∧
     writeFile w (getenv w "REPORT_FILE") report 420 = logged (main w)).
Proof.
  rewrite main_eq. destruct (dotenvLoads w); cbn [negb]; [|by eauto].
  destruct (httpGet _ _ _) as [body|err]; [|by eauto].
  destruct (unmarshal w body) as [events|err]; [|by eauto].
  destruct (dailyReport _ _ _ events) as [report|]; [|done].
  destruct (writeFile _ _ _ _) as [err|] eqn:Ew; [|done].
  intros _. cbn [logged written stdout]. split_and!; [by eauto | done |].
  right. by exists report.
Qed.

Lemma main_fatal_witness :
  let w := mkWorld true (getenv sampleWorld) jan02 jan02 (httpGet sampleWorld)
             (unmarshal sampleWorld) (λ path content mode, Some "read-only file system") in
  logged (main w) = Some "read-only file system" ∧ written (main w) = None.
Proof.
  intros w. destruct (main_fatal w) as (_ & H2 & _).
  - vm_compute. reflexivity.
  - split; [vm_compute; reflexivity | exact H2].
Defined.
